(** * gh-pr-feedback: a shallow embedding of [main.go]

    The program fetches review comments, issue comments, reviews and the
    CI status rollup of a pull request, filters them into one
    [PRFeedback] aggregate and prints it as JSON or as coloured text.

    Layout of this development:
    - models of the Go library functions the program calls
      ([strings], [strconv], [float64], [time]);
    - the data model of [main.go] (its three structs and the anonymous
      response structs);
    - the functions of [main.go], in a small state monad over a [World]
      that holds standard output, standard error and the wall clock;
    - the properties. *)

From Stdlib Require Import ZArith String Ascii List Bool Lia DecimalString.
From Stdlib Require Import Floats.SpecFloat.
Import ListNotations.

Open Scope string_scope.
Open Scope Z_scope.

(* ================================================================= *)
(** ** Go library: package [strings] *)

Module strings.

(** [strings.HasPrefix(s, prefix)]. *)
Definition HasPrefix (s p : string) : bool := String.prefix p s.

(** [strings.Contains(s, substr)]: [substr] starts at some index of
    [s]. *)
Fixpoint Contains (s substr : string) : bool :=
  String.prefix substr s ||
  match s with
  | EmptyString => false
  | String _ s' => Contains s' substr
  end.

(** The pieces of [s] between the occurrences of [sep], scanning left to
    right; [skip] counts the bytes of a separator found earlier that are
    still to be dropped. *)
Fixpoint split_from (sep s : string) (skip : nat) : list string :=
  match s with
  | EmptyString => [EmptyString]
  | String c s' =>
      match skip with
      | S k => split_from sep s' k
      | O =>
          if String.prefix sep s
          then EmptyString :: split_from sep s' (Nat.pred (String.length sep))
          else match split_from sep s' O with
               | piece :: pieces => String c piece :: pieces
               | [] => [String c EmptyString]
               end
      end
  end.

(** [strings.Split(s, sep)] for a non-empty separator (the program only
    splits on ["/"] and on the newline).  With an empty separator Go
    explodes [s] into its UTF-8 sequences; bytes are used here. *)
Definition Split (s sep : string) : list string :=
  match sep with
  | EmptyString => map (fun c => String c EmptyString) (list_ascii_of_string s)
  | _ => split_from sep s O
  end.

(** [strings.Repeat(s, count)] for a non-negative count. *)
Fixpoint Repeat (s : string) (count : nat) : string :=
  match count with
  | O => EmptyString
  | S n => s ++ Repeat s n
  end.

End strings.

(* ================================================================= *)
(** ** Go library: package [strconv] *)

Module strconv.

Definition maxInt : Z := 2 ^ 63 - 1.
Definition minInt : Z := - 2 ^ 63.

(** [strconv.Itoa]. *)
Definition Itoa (n : Z) : string := NilZero.string_of_int (Z.to_int n).

Definition digit_of (c : ascii) : option Z :=
  let n := Z.of_nat (nat_of_ascii c) in
  if (48 <=? n) && (n <=? 57) then Some (n - 48) else None.

(** The value of a run of decimal digits, most significant first;
    [None] on any other byte. *)
Fixpoint digits_value (acc : Z) (s : string) : option Z :=
  match s with
  | EmptyString => Some acc
  | String c s' =>
      match digit_of c with
      | Some d => digits_value (acc * 10 + d) s'
      | None => None
      end
  end.

(** [strconv.Atoi] on a 64-bit platform: an optional sign, then one or
    more decimal digits, the value within the range of [int]; [None] is
    the error return (syntax or range). *)
Definition Atoi (s : string) : option Z :=
  let signed (neg : bool) (ds : string) :=
    match ds with
    | EmptyString => None
    | _ =>
        match digits_value 0 ds with
        | Some v =>
            let n := if neg then - v else v in
            if (minInt <=? n) && (n <=? maxInt) then Some n else None
        | None => None
        end
    end in
  match s with
  | EmptyString => None
  | String "-"%char ds => signed true ds
  | String "+"%char ds => signed false ds
  | _ => signed false s
  end.

End strconv.

(* ================================================================= *)
(** ** Go's [float64]

    IEEE 754 binary64 with round-to-nearest-even, through the Standard
    Library's executable specification of floating-point arithmetic. *)

Module float64.

Definition prec : Z := 53.
Definition emax : Z := 1024.

Definition t : Set := spec_float.

(** The conversion [float64(n)] of an integer. *)
Definition of_int (n : Z) : t := binary_normalize prec emax n 0 false.

Definition add (x y : t) : t := SFadd prec emax x y.
Definition div (x y : t) : t := SFdiv prec emax x y.

(** The conversion [int(x)] of a finite float: truncation toward zero. *)
Definition to_int (x : t) : Z :=
  match x with
  | S754_finite s m e =>
      let a := if 0 <=? e then Zpos m * 2 ^ e else Zpos m / 2 ^ (- e) in
      if s then - a else a
  | _ => 0
  end.

End float64.

(* ================================================================= *)
(** ** Go library: package [time] *)

Module time.

(** [time.Duration]: a signed 64-bit count of nanoseconds. *)
Definition Duration : Set := Z.

Definition Nanosecond : Duration := 1.
Definition Second : Duration := 1000000000.
Definition Minute : Duration := 60 * Second.
Definition Hour : Duration := 60 * Minute.

Definition minDuration : Duration := - 2 ^ 63.
Definition maxDuration : Duration := 2 ^ 63 - 1.

(** [d.Seconds()], [d.Minutes()] and [d.Hours()]: the whole part and the
    fractional part are converted apart and added, as in the library.
    Go's [/] and [%] on integers truncate toward zero. *)
Definition Seconds (d : Duration) : float64.t :=
  float64.add (float64.of_int (Z.quot d Second))
              (float64.div (float64.of_int (Z.rem d Second))
                           (float64.of_int 1000000000)).

Definition Minutes (d : Duration) : float64.t :=
  float64.add (float64.of_int (Z.quot d Minute))
              (float64.div (float64.of_int (Z.rem d Minute))
                           (float64.of_int (60 * 1000000000))).

Definition Hours (d : Duration) : float64.t :=
  float64.add (float64.of_int (Z.quot d Hour))
              (float64.div (float64.of_int (Z.rem d Hour))
                           (float64.of_int (60 * 60 * 1000000000))).

(** [time.Time]: an instant, as nanoseconds since January 1, year 1,
    00:00:00 UTC, which is the zero [Time]. *)
Definition Time : Set := Z.

Definition IsZero (t : Time) : bool := t =? 0.

(** The layout [time.RFC3339]. *)
Definition RFC3339 : string := "2006-01-02T15:04:05Z07:00".

(** [t.Sub(u)]: the difference, saturated to the range of [Duration]. *)
Definition Sub (t u : Time) : Duration :=
  let d := t - u in
  if d <? minDuration then minDuration
  else if maxDuration <? d then maxDuration
  else d.

End time.

(* ================================================================= *)
(** ** [formatTimeAgo] and [formatDuration] *)

Definition formatTimeAgo (d : time.Duration) : string :=
  if d <? time.Minute then "just now"
  else if d <? time.Hour then
    let mins := float64.to_int (time.Minutes d) in
    if mins =? 1 then "1 minute ago"
    else strconv.Itoa mins ++ " minutes ago"
  else if d <? 24 * time.Hour then
    let hours := float64.to_int (time.Hours d) in
    if hours =? 1 then "1 hour ago"
    else strconv.Itoa hours ++ " hours ago"
  else
    let days := float64.to_int (float64.div (time.Hours d) (float64.of_int 24)) in
    if days =? 1 then "1 day ago"
    else if days <? 30 then strconv.Itoa days ++ " days ago"
    else if days <? 365 then
      let months := Z.quot days 30 in
      if months =? 1 then "1 month ago"
      else strconv.Itoa months ++ " months ago"
    else
      let years := Z.quot days 365 in
      if years =? 1 then "1 year ago"
      else strconv.Itoa years ++ " years ago".

Definition formatDuration (d : time.Duration) : string :=
  if d <? time.Minute then
    strconv.Itoa (float64.to_int (time.Seconds d)) ++ "s"
  else if d <? time.Hour then
    strconv.Itoa (float64.to_int (time.Minutes d)) ++ "m " ++
    strconv.Itoa (Z.rem (float64.to_int (time.Seconds d)) 60) ++ "s"
  else
    strconv.Itoa (float64.to_int (time.Hours d)) ++ "h " ++
    strconv.Itoa (Z.rem (float64.to_int (time.Minutes d)) 60) ++ "m".

(* ================================================================= *)
(** ** Errors, the world and the monad of effects *)

(** A Go [(value, error)] pair whose value is only used when the error is
    nil; an [error] is represented by its message. *)
Inductive Result (A : Type) : Type :=
| Ok (a : A)
| Err (msg : string).
Arguments Ok {A} a.
Arguments Err {A} msg.

Definition is_err {A : Type} (r : Result A) : bool :=
  match r with
  | Ok _ => false
  | Err _ => true
  end.

(** [fmt.Errorf(prefix + ": %w", err)]. *)
Definition wrap {A : Type} (prefix msg : string) : Result A :=
  Err (prefix ++ ": " ++ msg).

(** What the process can observe and change: the bytes written so far to
    standard output and standard error, and the wall clock.  [clock w k]
    is what the [k]-th next call of [time.Now] returns. *)
Record World : Type := mkWorld {
  stdout : string;
  stderr : string;
  clock : nat -> time.Time
}.

(** A statement either completes with a value or ends the process
    ([os.Exit], or [return] from [main]). *)
Inductive Outcome (A : Type) : Type :=
| Return (a : A)
| Exit (code : Z).
Arguments Return {A} a.
Arguments Exit {A} code.

Definition IO (A : Type) : Type := World -> Outcome A * World.

Definition ret {A : Type} (a : A) : IO A := fun w => (Return a, w).

Definition bind {A B : Type} (m : IO A) (k : A -> IO B) : IO B :=
  fun w =>
    match m w with
    | (Return a, w') => k a w'
    | (Exit code, w') => (Exit code, w')
    end.

Notation "x <- m ;; k" := (bind m (fun x => k))
  (at level 61, m at next level, right associativity).
Notation "m ;; k" := (bind m (fun _ => k))
  (at level 61, right associativity).

Definition os_Exit {A : Type} (code : Z) : IO A := fun w => (Exit code, w).

(** Writing to standard output ([fmt.Print], [fmt.Printf] once the verbs
    are substituted) and to standard error ([fmt.Fprintf(os.Stderr, ...)]). *)
Definition print (s : string) : IO unit :=
  fun w => (Return tt, mkWorld (stdout w ++ s) (stderr w) (clock w)).

Definition eprint (s : string) : IO unit :=
  fun w => (Return tt, mkWorld (stdout w) (stderr w ++ s) (clock w)).

Definition nl : string := String "010"%char EmptyString.

(** [fmt.Println(s)]. *)
Definition println (s : string) : IO unit := print (s ++ nl).

(** [time.Now()] reads the clock, which then moves on. *)
Definition time_Now : IO time.Time :=
  fun w => (Return (clock w O),
            mkWorld (stdout w) (stderr w) (fun k => clock w (S k))).

(** [time.Since(t)] is [time.Now().Sub(t)]. *)
Definition time_Since (t : time.Time) : IO time.Duration :=
  now <- time_Now ;; ret (time.Sub now t).

Definition when (b : bool) (m : IO unit) : IO unit :=
  if b then m else ret tt.

(** [for _, x := range xs { body x }]. *)
Fixpoint for_range {A : Type} (xs : list A) (body : A -> IO unit) : IO unit :=
  match xs with
  | [] => ret tt
  | x :: xs' => body x ;; for_range xs' body
  end.

(** [for i, x := range xs { body i x }], counting from [i]. *)
Fixpoint for_range_from {A : Type} (i : Z) (xs : list A)
         (body : Z -> A -> IO unit) : IO unit :=
  match xs with
  | [] => ret tt
  | x :: xs' => body i x ;; for_range_from (i + 1) xs' body
  end.

(** [len(xs)]. *)
Definition len {A : Type} (xs : list A) : Z := Z.of_nat (List.length xs).

(* ================================================================= *)
(** ** The data model of [main.go] *)

Module ReviewComment.
Record t : Type := mk {
  ID : Z;
  Body : string;
  Path : string;
  Line : option Z;
  StartLine : option Z;
  OriginalLine : option Z;
  DiffHunk : string;
  Author : string;
  AuthorAssoc : string;
  State : string;
  InReplyTo : option Z;
  CreatedAt : string;
  UpdatedAt : string;
  Outdated : bool;
  SubjectType : string
}.
End ReviewComment.

Module StatusCheck.
Record t : Type := mk {
  Name : string;
  Status : string;
  Conclusion : string;
  DetailsURL : string;
  WorkflowName : string;
  RunID : string;
  StartedAt : string;
  CompletedAt : string;
  CheckCommand : string
}.
End StatusCheck.

Module PRFeedback.
Record t : Type := mk {
  PRNumber : Z;
  Title : string;
  URL : string;
  Comments : list ReviewComment.t;
  GeneralIssues : list ReviewComment.t;
  StatusChecks : list StatusCheck.t
}.
End PRFeedback.

(** The anonymous struct [pr] of [getPRFeedback]. *)
Module pr.
Record t : Type := mk {
  Number : Z;
  Title : string;
  HTMLURL : string
}.
End pr.

(** An element of the anonymous slice [reviewComments]. *)
Module reviewComment.
Record t : Type := mk {
  ID : Z;
  Body : string;
  Path : string;
  Line : option Z;
  StartLine : option Z;
  OriginalLine : option Z;
  DiffHunk : string;
  AuthorAssoc : string;
  User_Login : string;
  InReplyToID : option Z;
  CreatedAt : string;
  UpdatedAt : string;
  Outdated : bool;
  SubjectType : string
}.
End reviewComment.

(** An element of the anonymous slice [issueComments]. *)
Module issueComment.
Record t : Type := mk {
  ID : Z;
  Body : string;
  AuthorAssoc : string;
  User_Login : string;
  CreatedAt : string;
  UpdatedAt : string
}.
End issueComment.

(** An element of the anonymous slice [reviews]. *)
Module review.
Record t : Type := mk {
  ID : Z;
  Body : string;
  State : string;
  User_Login : string;
  AuthorAssoc : string;
  SubmittedAt : string
}.
End review.

(** An element of [result.StatusCheckRollup] in [getStatusChecks]. *)
Module check.
Record t : Type := mk {
  Name : string;
  Status : string;
  Conclusion : string;
  DetailsURL : string;
  WorkflowName : string;
  StartedAt : string;
  CompletedAt : string
}.
End check.

(** [api.RESTClient]: [client.Get(endpoint, &v)] decodes the response into
    [v], so there is one method per type of [v] the program passes. *)
Record RESTClient : Type := mkRESTClient {
  Get_pr : string -> Result pr.t;
  Get_reviewComments : string -> Result (list reviewComment.t);
  Get_issueComments : string -> Result (list issueComment.t);
  Get_reviews : string -> Result (list review.t)
}.

(** The host the program runs on: [exec.Command(name, args...).Output()],
    [json.Unmarshal] into the rollup struct of [getStatusChecks], and
    whether [os.Stat] reports that a path does not exist. *)
Record Host : Type := mkHost {
  exec_Output : string -> list string -> Result string;
  json_Unmarshal_rollup : string -> Result (list check.t);
  os_Stat_IsNotExist : string -> bool
}.

(* ================================================================= *)
(** ** [extractRunID] and [getStatusChecks] *)

(** The loop of [extractRunID] over [parts[i:]]: [part == "runs" && i+1 <
    len(parts)] holds exactly when ["runs"] has a successor. *)
Fixpoint extractRunID_loop (parts : list string) : string :=
  match parts with
  | [] => ""
  | part :: rest =>
      match rest with
      | next :: _ => if (part =? "runs")%string then next else extractRunID_loop rest
      | [] => ""
      end
  end.

Definition extractRunID (detailsURL : string) : string :=
  extractRunID_loop (strings.Split detailsURL "/").

Definition is_failing (conclusion : string) : bool :=
  (conclusion =? "FAILURE")%string || (conclusion =? "ERROR")%string ||
  (conclusion =? "CANCELLED")%string.

(** The [StatusCheck] built for one retained entry of the rollup. *)
Definition statusCheck_of (c : check.t) : StatusCheck.t :=
  let statusCheck :=
    StatusCheck.mk (check.Name c) (check.Status c) (check.Conclusion c)
                   (check.DetailsURL c) (check.WorkflowName c) ""
                   (check.StartedAt c) (check.CompletedAt c) "" in
  if strings.Contains (check.DetailsURL c) "/actions/runs/" then
    let runID := extractRunID (check.DetailsURL c) in
    if negb (runID =? "")%string then
      StatusCheck.mk (StatusCheck.Name statusCheck)
                     (StatusCheck.Status statusCheck)
                     (StatusCheck.Conclusion statusCheck)
                     (StatusCheck.DetailsURL statusCheck)
                     (StatusCheck.WorkflowName statusCheck)
                     runID
                     (StatusCheck.StartedAt statusCheck)
                     (StatusCheck.CompletedAt statusCheck)
                     ("gh run view " ++ runID)
    else statusCheck
  else statusCheck.

(** The loop of [getStatusChecks] over the parsed rollup. *)
Definition failing_checks (rollup : list check.t) : list StatusCheck.t :=
  fold_left
    (fun statusChecks c =>
       if is_failing (check.Conclusion c)
       then (statusChecks ++ [statusCheck_of c])%list
       else statusChecks)
    rollup [].

Definition getStatusChecks (host : Host) (repo : string) (prNumber : Z)
  : Result (list StatusCheck.t) :=
  match exec_Output host "gh"
          ["pr"; "view"; strconv.Itoa prNumber; "--repo"; repo;
           "--json"; "statusCheckRollup"] with
  | Err e => wrap "failed to get status checks" e
  | Ok output =>
      match json_Unmarshal_rollup host output with
      | Err e => wrap "failed to parse status checks" e
      | Ok rollup => Ok (failing_checks rollup)
      end
  end.

(* ================================================================= *)
(** ** [getPRFeedback] *)

Definition endpoint (repo : string) (prNumber : Z) : string :=
  "repos/" ++ repo ++ "/pulls/" ++ strconv.Itoa prNumber.
Definition reviewEndpoint (repo : string) (prNumber : Z) : string :=
  "repos/" ++ repo ++ "/pulls/" ++ strconv.Itoa prNumber ++ "/comments".
Definition issueEndpoint (repo : string) (prNumber : Z) : string :=
  "repos/" ++ repo ++ "/issues/" ++ strconv.Itoa prNumber ++ "/comments".
Definition reviewsEndpoint (repo : string) (prNumber : Z) : string :=
  "repos/" ++ repo ++ "/pulls/" ++ strconv.Itoa prNumber ++ "/reviews".

(** The [ReviewComment] built from a top-level review comment. *)
Definition of_reviewComment (c : reviewComment.t) : ReviewComment.t :=
  ReviewComment.mk
    (reviewComment.ID c) (reviewComment.Body c) (reviewComment.Path c)
    (reviewComment.Line c) (reviewComment.StartLine c)
    (reviewComment.OriginalLine c) (reviewComment.DiffHunk c)
    (reviewComment.User_Login c) (reviewComment.AuthorAssoc c)
    "unresolved" (reviewComment.InReplyToID c)
    (reviewComment.CreatedAt c) (reviewComment.UpdatedAt c)
    (reviewComment.Outdated c) (reviewComment.SubjectType c).

(** The [ReviewComment] built from an issue comment; the fields the
    literal omits take their zero values. *)
Definition of_issueComment (c : issueComment.t) : ReviewComment.t :=
  ReviewComment.mk
    (issueComment.ID c) (issueComment.Body c) "" None None None ""
    (issueComment.User_Login c) (issueComment.AuthorAssoc c)
    "unresolved" None
    (issueComment.CreatedAt c) (issueComment.UpdatedAt c) false "".

(** The [ReviewComment] built from a review with a summary. *)
Definition of_review (r : review.t) : ReviewComment.t :=
  ReviewComment.mk
    (review.ID r) (review.Body r) "" None None None ""
    (review.User_Login r) (review.AuthorAssoc r)
    "unresolved" None
    (review.SubmittedAt r) (review.SubmittedAt r) false "".

Definition is_nil {A : Type} (p : option A) : bool :=
  match p with
  | None => true
  | Some _ => false
  end.

(** The three filtering loops, each appending to the slice it is given. *)
Definition add_reviewComments (reviewComments : list reviewComment.t)
           (comments : list ReviewComment.t) : list ReviewComment.t :=
  fold_left
    (fun acc comment =>
       if is_nil (reviewComment.InReplyToID comment)
       then (acc ++ [of_reviewComment comment])%list
       else acc)
    reviewComments comments.

Definition add_issueComments (issueComments : list issueComment.t)
           (generalIssues : list ReviewComment.t) : list ReviewComment.t :=
  fold_left (fun acc comment => (acc ++ [of_issueComment comment])%list)
            issueComments generalIssues.

Definition add_reviews (reviews : list review.t)
           (generalIssues : list ReviewComment.t) : list ReviewComment.t :=
  fold_left
    (fun acc r =>
       if negb (review.Body r =? "")%string &&
          (review.State r =? "COMMENTED")%string
       then (acc ++ [of_review r])%list
       else acc)
    reviews generalIssues.

Definition getPRFeedback (host : Host) (client : RESTClient)
           (repo : string) (prNumber : Z) : IO (Result PRFeedback.t) :=
  match Get_pr client (endpoint repo prNumber) with
  | Err e => ret (wrap "failed to fetch PR details" e)
  | Ok p =>
  match Get_reviewComments client (reviewEndpoint repo prNumber) with
  | Err e => ret (wrap "failed to fetch review comments" e)
  | Ok reviewComments =>
  let comments := add_reviewComments reviewComments [] in
  match Get_issueComments client (issueEndpoint repo prNumber) with
  | Err e => ret (wrap "failed to fetch issue comments" e)
  | Ok issueComments =>
  let generalIssues := add_issueComments issueComments [] in
  match Get_reviews client (reviewsEndpoint repo prNumber) with
  | Err e => ret (wrap "failed to fetch reviews" e)
  | Ok reviews =>
  let generalIssues := add_reviews reviews generalIssues in
  match getStatusChecks host repo prNumber with
  | Err e =>
      eprint ("Warning: failed to fetch status checks: " ++ e ++ nl) ;;
      ret (Ok (PRFeedback.mk (pr.Number p) (pr.Title p) (pr.HTMLURL p)
                             comments generalIssues []))
  | Ok statusChecks =>
      ret (Ok (PRFeedback.mk (pr.Number p) (pr.Title p) (pr.HTMLURL p)
                             comments generalIssues statusChecks))
  end end end end end.

(* ================================================================= *)
(** ** The argument loop of [main] *)

(** The four variables [main] declares before the loop. *)
Module args.
Record t : Type := mk {
  jsonOutput : bool;
  targetDir : string;
  prNumber : Z;
  repoName : string
}.
End args.

Definition printHelp : IO unit :=
  println "Usage: gh pr-feedback [flags] [pr-number|directory]" ;;
  println "Extracts unresolved review feedback from a PR" ;;
  println "" ;;
  println "Arguments:" ;;
  println "  pr-number        PR number to view feedback for" ;;
  println "  directory        Path to git repository (default: current directory)" ;;
  println "" ;;
  println "Flags:" ;;
  println "  -h, --help       Show help" ;;
  println "  -j, --json       Output in JSON format" ;;
  println "  -R, --repo       Repository name (owner/name)" ;;
  println "  -v, --version    Show version" ;;
  println "" ;;
  println "Examples:" ;;
  println "  gh pr-feedback                      # Current PR in current directory" ;;
  println "  gh pr-feedback 117                  # PR 117 in current repo" ;;
  println "  gh pr-feedback 117 --repo owner/name  # PR 117 in specified repo" ;;
  println "  gh pr-feedback /path/to/repo        # Current PR in specified directory".

(** [num, err := strconv.Atoi(arg); err == nil && num > 0]. *)
Definition positive_number (arg : string) : option Z :=
  match strconv.Atoi arg with
  | Some num => if 0 <? num then Some num else None
  | None => None
  end.

(** The loop [for i := 0; i < len(args); i++] of [main] over the arguments
    still to be read; [return] from [main] ends the process with status
    0. *)
Fixpoint parse_args (host : Host) (rest : list string) (a : args.t)
  : IO args.t :=
  match rest with
  | [] => ret a
  | arg :: rest' =>
      if (arg =? "--version")%string || (arg =? "-v")%string then
        println "gh-pr-feedback v1.2.0" ;; os_Exit 0
      else if (arg =? "--help")%string || (arg =? "-h")%string then
        printHelp ;; os_Exit 0
      else if (arg =? "--json")%string || (arg =? "-j")%string then
        parse_args host rest'
          (args.mk true (args.targetDir a) (args.prNumber a) (args.repoName a))
      else if (arg =? "--repo")%string || (arg =? "-R")%string then
        match rest' with
        | value :: rest'' =>
            parse_args host rest''
              (args.mk (args.jsonOutput a) (args.targetDir a) (args.prNumber a)
                       value)
        | [] =>
            eprint ("Error: --repo requires a value" ++ nl) ;; os_Exit 1
        end
      else if negb (strings.HasPrefix arg "-") then
        match positive_number arg with
        | Some num =>
            parse_args host rest'
              (args.mk (args.jsonOutput a) (args.targetDir a) num
                       (args.repoName a))
        | None =>
            if (args.targetDir a =? "")%string then
              if os_Stat_IsNotExist host arg then
                eprint ("Error: Directory '" ++ arg ++ "' does not exist" ++ nl) ;;
                os_Exit 1
              else
                parse_args host rest'
                  (args.mk (args.jsonOutput a) arg (args.prNumber a)
                           (args.repoName a))
            else parse_args host rest' a
        end
      else parse_args host rest' a
  end.

(** [main] from its start to the default of [targetDir]. *)
Definition main_arguments (host : Host) (os_Args : list string) : IO args.t :=
  a <- parse_args host (tl os_Args) (args.mk false "" 0 "") ;;
  if (args.targetDir a =? "")%string
  then ret (args.mk (args.jsonOutput a) "." (args.prNumber a) (args.repoName a))
  else ret a.

(* ================================================================= *)
(** ** The structured document: [encoding/json] on the three structs *)

#[local] Unset Elimination Schemes.
Inductive JSON : Type :=
| JNull
| JBool (b : bool)
| JNumber (n : Z)
| JString (s : string)
| JArray (elements : list JSON)
| JObject (members : list (string * JSON)).
#[local] Set Elimination Schemes.

(** A field without [omitempty]: always a member. *)
Definition field (name : string) (v : JSON) : list (string * JSON) :=
  [(name, v)].

(** A [*int] field: [null] for the nil pointer. *)
Definition of_ptr (p : option Z) : JSON :=
  match p with
  | None => JNull
  | Some n => JNumber n
  end.

(** Fields tagged [omitempty]: no member for the empty string, [false] or
    the nil pointer. *)
Definition omitempty_string (name s : string) : list (string * JSON) :=
  if (s =? "")%string then [] else [(name, JString s)].

Definition omitempty_bool (name : string) (b : bool) : list (string * JSON) :=
  if b then [(name, JBool true)] else [].

Definition omitempty_ptr (name : string) (p : option Z)
  : list (string * JSON) :=
  match p with
  | None => []
  | Some n => [(name, JNumber n)]
  end.

(** A slice: [null] when nil.  The slices of [PRFeedback] are only ever
    grown by [append] from nil, so they are nil when empty. *)
Definition of_slice {A : Type} (f : A -> JSON) (xs : list A) : JSON :=
  match xs with
  | [] => JNull
  | _ => JArray (map f xs)
  end.

(** The members of a [ReviewComment], in the order of its fields and by
    their [json] tags. *)
Definition members_ReviewComment (c : ReviewComment.t)
  : list (string * JSON) :=
  (field "id" (JNumber (ReviewComment.ID c)) ++
   field "body" (JString (ReviewComment.Body c)) ++
   field "path" (JString (ReviewComment.Path c)) ++
   field "line" (of_ptr (ReviewComment.Line c)) ++
   field "start_line" (of_ptr (ReviewComment.StartLine c)) ++
   omitempty_ptr "original_line" (ReviewComment.OriginalLine c) ++
   omitempty_string "diff_hunk" (ReviewComment.DiffHunk c) ++
   field "author" (JString (ReviewComment.Author c)) ++
   omitempty_string "author_association" (ReviewComment.AuthorAssoc c) ++
   field "state" (JString (ReviewComment.State c)) ++
   field "in_reply_to_id" (of_ptr (ReviewComment.InReplyTo c)) ++
   field "created_at" (JString (ReviewComment.CreatedAt c)) ++
   field "updated_at" (JString (ReviewComment.UpdatedAt c)) ++
   omitempty_bool "outdated" (ReviewComment.Outdated c) ++
   omitempty_string "subject_type" (ReviewComment.SubjectType c))%list.

Definition members_StatusCheck (c : StatusCheck.t) : list (string * JSON) :=
  (field "name" (JString (StatusCheck.Name c)) ++
   field "status" (JString (StatusCheck.Status c)) ++
   field "conclusion" (JString (StatusCheck.Conclusion c)) ++
   field "details_url" (JString (StatusCheck.DetailsURL c)) ++
   omitempty_string "workflow_name" (StatusCheck.WorkflowName c) ++
   omitempty_string "run_id" (StatusCheck.RunID c) ++
   field "started_at" (JString (StatusCheck.StartedAt c)) ++
   field "completed_at" (JString (StatusCheck.CompletedAt c)) ++
   omitempty_string "check_command" (StatusCheck.CheckCommand c))%list.

Definition members_PRFeedback (f : PRFeedback.t) : list (string * JSON) :=
  (field "pr_number" (JNumber (PRFeedback.PRNumber f)) ++
   field "title" (JString (PRFeedback.Title f)) ++
   field "url" (JString (PRFeedback.URL f)) ++
   field "comments"
     (of_slice (fun c => JObject (members_ReviewComment c))
               (PRFeedback.Comments f)) ++
   field "general_issues"
     (of_slice (fun c => JObject (members_ReviewComment c))
               (PRFeedback.GeneralIssues f)) ++
   field "status_checks"
     (of_slice (fun c => JObject (members_StatusCheck c))
               (PRFeedback.StatusChecks f)))%list.

(** The member of an object with a given name, when there is one. *)
Fixpoint member (name : string) (members : list (string * JSON))
  : option JSON :=
  match members with
  | [] => None
  | (k, v) :: rest => if (k =? name)%string then Some v else member name rest
  end.

Definition dquote : string := String "034"%char EmptyString.

Fixpoint join (sep : string) (pieces : list string) : string :=
  match pieces with
  | [] => ""
  | [piece] => piece
  | piece :: rest => piece ++ sep ++ join sep rest
  end.

(* ================================================================= *)
(** ** Rendering *)

Definition esc : string := String "027"%char EmptyString.

Definition colorReset : string := esc ++ "[0m".
Definition colorRed : string := esc ++ "[31m".
Definition colorGreen : string := esc ++ "[32m".
Definition colorYellow : string := esc ++ "[33m".
Definition colorBlue : string := esc ++ "[34m".
Definition colorPurple : string := esc ++ "[35m".
Definition colorCyan : string := esc ++ "[36m".
Definition colorGray : string := esc ++ "[90m".
Definition colorBold : string := esc ++ "[1m".
Definition colorDim : string := esc ++ "[2m".

Section Rendering.

(** Library functions whose result is used as it comes:
    [time.Parse(layout, value)], [strings.ToLower], [strings.Title], and
    the encoding of a string as a JSON string literal. *)
Variable time_Parse : string -> string -> Result time.Time.
Variable strings_ToLower : string -> string.
Variable strings_Title : string -> string.
Variable json_quote : string -> string.

(** [json.MarshalIndent(v, "", "  ")] on a document, at nesting [depth]. *)
Fixpoint indented (depth : nat) (v : JSON) : string :=
  let inner := strings.Repeat "  " (S depth) in
  let outer := strings.Repeat "  " depth in
  match v with
  | JNull => "null"
  | JBool b => if b then "true" else "false"
  | JNumber n => strconv.Itoa n
  | JString s => json_quote s
  | JArray [] => "[]"
  | JArray elements =>
      "[" ++ nl ++ inner ++
      join ("," ++ nl ++ inner) (map (indented (S depth)) elements) ++
      nl ++ outer ++ "]"
  | JObject [] => "{}"
  | JObject members =>
      "{" ++ nl ++ inner ++
      join ("," ++ nl ++ inner)
           (map (fun kv =>
                   match kv with
                   | (k, v') =>
                       dquote ++ k ++ dquote ++ ": " ++ indented (S depth) v'
                   end)
                members) ++
      nl ++ outer ++ "}"
  end.

Definition json_MarshalIndent (feedback : PRFeedback.t) : string :=
  indented O (JObject (members_PRFeedback feedback)).

(** [printDiffHunk]. *)
Definition printDiffHunk (diffHunk : string) : IO unit :=
  let lines := strings.Split diffHunk nl in
  for_range lines (fun line =>
    match line with
    | EmptyString => ret tt
    | String c _ =>
        if (c =? "+")%char then
          print ("    " ++ colorGreen ++ line ++ colorReset ++ nl)
        else if (c =? "-")%char then
          print ("    " ++ colorRed ++ line ++ colorReset ++ nl)
        else if (c =? "@")%char then
          print ("    " ++ colorCyan ++ line ++ colorReset ++ nl)
        else
          print ("    " ++ line ++ nl)
    end).

(** [parseTime]: on an error Go's [time.Parse] returns the zero [Time]. *)
Definition parseTime (timeStr : string) : time.Time * option string :=
  match time_Parse time.RFC3339 timeStr with
  | Ok t => (t, None)
  | Err e => (0, Some e)
  end.

(** One block of the general review comments. *)
Definition print_general (review : ReviewComment.t) : IO unit :=
  print (colorBold ++ ReviewComment.Author review ++ colorReset ++
         " commented " ++ colorGray ++ "(" ++
         strings_Title (strings_ToLower (ReviewComment.AuthorAssoc review)) ++
         ")" ++ colorReset ++ " • " ++ colorGray) ;;
  when (negb (ReviewComment.CreatedAt review =? "")%string)
    (let (t, err) := parseTime (ReviewComment.CreatedAt review) in
     match err with
     | None =>
         d <- time_Since t ;;
         let ago := formatTimeAgo d in
         print ago
     | Some _ => ret tt
     end) ;;
  print (colorReset ++ nl ++ nl) ;;
  for_range (strings.Split (ReviewComment.Body review) nl)
    (fun line => print (line ++ nl)) ;;
  println "".

(** One block of the file-specific comments; [n] is
    [len(feedback.Comments)]. *)
Definition print_comment (n : Z) (i : Z) (comment : ReviewComment.t)
  : IO unit :=
  print (colorBold ++ ReviewComment.Author comment ++ colorReset) ;;
  when (negb (ReviewComment.AuthorAssoc comment =? "")%string &&
        negb (ReviewComment.AuthorAssoc comment =? "NONE")%string)
    (print (" • " ++ (colorGray ++
            strings_ToLower (ReviewComment.AuthorAssoc comment) ++
            colorReset))) ;;
  when (negb (ReviewComment.CreatedAt comment =? "")%string)
    (let (t, err) := parseTime (ReviewComment.CreatedAt comment) in
     match err with
     | None =>
         d <- time_Since t ;;
         let ago := formatTimeAgo d in
         print (" • " ++ colorGray ++ ago ++ colorReset)
     | Some _ => ret tt
     end) ;;
  when (ReviewComment.Outdated comment)
    (print (" " ++ colorYellow ++ "• Outdated" ++ colorReset)) ;;
  println nl ;;
  for_range (strings.Split (ReviewComment.Body comment) nl)
    (fun line => print (line ++ nl)) ;;
  println "" ;;
  when (negb (ReviewComment.Path comment =? "")%string)
    (print (colorBlue ++ ReviewComment.Path comment) ;;
     match ReviewComment.Line comment with
     | Some line =>
         when (0 <? line) (print (" on line " ++ strconv.Itoa line))
     | None => ret tt
     end ;;
     print (colorReset ++ nl) ;;
     when (negb (ReviewComment.DiffHunk comment =? "")%string &&
           negb (ReviewComment.Outdated comment))
       (println "" ;;
        printDiffHunk (ReviewComment.DiffHunk comment))) ;;
  when (i <? n - 1)
    (println (nl ++ strings.Repeat "─" 100 ++ nl)).

(** One line of the failed checks. *)
Definition print_check (check : StatusCheck.t) : IO unit :=
  let cancelled := (StatusCheck.Conclusion check =? "CANCELLED")%string in
  let symbol := if cancelled then "⊘" else "✗" in
  let symbolColor := if cancelled then colorYellow else colorRed in
  print (symbolColor ++ symbol ++ colorReset ++ " " ++
         StatusCheck.Name check) ;;
  when (negb (StatusCheck.StartedAt check =? "")%string &&
        negb (StatusCheck.CompletedAt check =? "")%string)
    (let (start, _) := parseTime (StatusCheck.StartedAt check) in
     let (end_, _) := parseTime (StatusCheck.CompletedAt check) in
     when (negb (time.IsZero start) && negb (time.IsZero end_))
       (let diff := time.Sub end_ start in
        print (" " ++ colorGray ++ "(took " ++ formatDuration diff ++ ")" ++
               colorReset))) ;;
  when (negb (StatusCheck.CheckCommand check =? "")%string)
    (print (" → " ++ colorCyan ++ StatusCheck.CheckCommand check ++
            colorReset)) ;;
  println "".

Definition printHumanReadable (feedback : PRFeedback.t) : IO unit :=
  let commentCount :=
    len (PRFeedback.Comments feedback) +
    len (PRFeedback.GeneralIssues feedback) in
  let checkCount := len (PRFeedback.StatusChecks feedback) in
  print (colorBold ++ PRFeedback.Title feedback ++ " #" ++
         strconv.Itoa (PRFeedback.PRNumber feedback) ++ colorReset ++ nl) ;;
  print (colorGreen ++ "Open" ++ colorReset ++ " • " ++
         (colorGray ++ PRFeedback.URL feedback ++ colorReset) ++ nl) ;;
  when ((0 <? commentCount) || (0 <? checkCount))
    (print nl ;;
     if (0 <? commentCount) && (0 <? checkCount) then
       print (colorYellow ++ "!" ++ colorReset ++ " Found " ++
              strconv.Itoa commentCount ++ " unresolved comment(s) and " ++
              strconv.Itoa checkCount ++ " failing check(s)" ++ nl)
     else if 0 <? commentCount then
       print (colorYellow ++ "!" ++ colorReset ++ " Found " ++
              strconv.Itoa commentCount ++ " unresolved comment(s)" ++ nl)
     else if 0 <? checkCount then
       print (colorRed ++ "X" ++ colorReset ++ " Found " ++
              strconv.Itoa checkCount ++ " failing check(s)" ++ nl)
     else ret tt) ;;
  println "" ;;
  when ((0 <? len (PRFeedback.Comments feedback)) ||
        (0 <? len (PRFeedback.GeneralIssues feedback)))
    (when (0 <? len (PRFeedback.GeneralIssues feedback))
       (for_range (PRFeedback.GeneralIssues feedback) print_general) ;;
     when (0 <? len (PRFeedback.Comments feedback))
       (println (strings.Repeat "─" 100) ;;
        println "" ;;
        for_range_from 0 (PRFeedback.Comments feedback)
          (print_comment (len (PRFeedback.Comments feedback))))) ;;
  when (0 <? len (PRFeedback.StatusChecks feedback))
    (println (nl ++ strings.Repeat "─" 100 ++ nl) ;;
     print (colorBold ++ "Failed Checks" ++ colorReset ++ nl ++ nl) ;;
     for_range (PRFeedback.StatusChecks feedback) print_check).

(** The end of [main]: the aggregate is printed in the requested format.
    [json.MarshalIndent] has no error to return on a [PRFeedback]. *)
Definition main_output (jsonOutput : bool) (feedback : PRFeedback.t)
  : IO unit :=
  if jsonOutput then
    let output := json_MarshalIndent feedback in
    println output
  else
    printHumanReadable feedback.

End Rendering.

(* ================================================================= *)
(** ** [getCurrentPR] and [main] *)

(** What [main] and [getCurrentPR] ask of the platform besides the host:
    [os.Getwd()]; [os.Chdir(dir)], which on success gives the host as the
    process sees it from the new working directory (the commands it runs
    afterwards run there); [api.DefaultRESTClient()]; and [json.Unmarshal]
    into the two anonymous structs of [getCurrentPR], reduced to the field
    each has. *)
Record Platform : Type := mkPlatform {
  os_Getwd : Result string;
  os_Chdir : string -> Result Host;
  api_DefaultRESTClient : Result RESTClient;
  json_Unmarshal_number : string -> Result Z;
  json_Unmarshal_nameWithOwner : string -> Result string
}.

(** [getCurrentPR]; the error of the first command is not wrapped. *)
Definition getCurrentPR (platform : Platform) (host : Host)
           (client : RESTClient) : Result (Z * string) :=
  match exec_Output host "gh" ["pr"; "view"; "--json"; "number"] with
  | Err _ => Err "no PR found for current branch"
  | Ok output =>
      match json_Unmarshal_number platform output with
      | Err e => wrap "failed to parse PR data" e
      | Ok number =>
          match exec_Output host "gh"
                  ["repo"; "view"; "--json"; "nameWithOwner"] with
          | Err e => wrap "failed to get repository info" e
          | Ok output =>
              match json_Unmarshal_nameWithOwner platform output with
              | Err e => wrap "failed to parse repository data" e
              | Ok nameWithOwner => Ok (number, nameWithOwner)
              end
          end
      end
  end.

Section Main.

Variable time_Parse : string -> string -> Result time.Time.
Variable strings_ToLower : string -> string.
Variable strings_Title : string -> string.
Variable json_quote : string -> string.

(** The PR number and the repository [main] settles on, from the
    arguments and, when one of them is missing, from [getCurrentPR]. *)
Definition resolve (platform : Platform) (host : Host) (client : RESTClient)
           (prNumber : Z) (repoName : string) : IO (Z * string) :=
  if (0 <? prNumber) && negb (repoName =? "")%string then
    ret (prNumber, repoName)
  else if 0 <? prNumber then
    match getCurrentPR platform host client with
    | Err _ =>
        eprint ("Error: PR number provided but couldn't determine repository."
                ++ nl) ;;
        eprint ("Use --repo to specify the repository (e.g., --repo owner/name)"
                ++ nl) ;;
        os_Exit 1
    | Ok (_, currentRepo) => ret (prNumber, currentRepo)
    end
  else
    match getCurrentPR platform host client with
    | Err e =>
        eprint ("Error: " ++ e ++ nl) ;;
        eprint (nl ++ "Make sure you're in a git repository with an open PR."
                ++ nl) ;;
        eprint ("You can check PR status with: gh pr status" ++ nl) ;;
        eprint ("Or specify a PR number: gh pr-feedback 123 --repo owner/name"
                ++ nl) ;;
        os_Exit 1
    | Ok (currentPR, currentRepo) => ret (currentPR, currentRepo)
    end.

(** [main]; [host] is the host as seen from the directory the process
    starts in.  The deferred change back to that directory has no effect
    on what the process writes. *)
Definition main (platform : Platform) (host : Host) (os_Args : list string)
  : IO unit :=
  a <- main_arguments host os_Args ;;
  match os_Getwd platform with
  | Err e => eprint ("Error getting current directory: " ++ e ++ nl) ;;
             os_Exit 1
  | Ok originalDir =>
      host' <- (if negb (args.targetDir a =? ".")%string then
                  match os_Chdir platform (args.targetDir a) with
                  | Err e =>
                      eprint ("Error changing to directory '" ++
                              args.targetDir a ++ "': " ++ e ++ nl) ;;
                      os_Exit 1
                  | Ok there => ret there
                  end
                else ret host) ;;
      match api_DefaultRESTClient platform with
      | Err e => eprint ("Error creating GitHub client: " ++ e ++ nl) ;;
                 os_Exit 1
      | Ok client =>
          target <- resolve platform host' client
                            (args.prNumber a) (args.repoName a) ;;
          r <- getPRFeedback host' client (snd target) (fst target) ;;
          match r with
          | Err e => eprint ("Error fetching PR feedback: " ++ e ++ nl) ;;
                     os_Exit 1
          | Ok feedback =>
              main_output time_Parse strings_ToLower strings_Title json_quote
                          (args.jsonOutput a) feedback
          end
      end
  end.

End Main.

(* ================================================================= *)
(** ** An instance of the library parameters

    Exact on ASCII text and on UTC timestamps written
    [2006-01-02T15:04:05Z], the form in which the API reports them; used
    to run the program on examples. *)

Module ascii_library.

Definition byte (c : ascii) : Z := Z.of_nat (nat_of_ascii c).
Definition of_byte (n : Z) : ascii := ascii_of_nat (Z.to_nat n).

Definition is_upper (c : ascii) : bool := (65 <=? byte c) && (byte c <=? 90).
Definition is_lower (c : ascii) : bool := (97 <=? byte c) && (byte c <=? 122).
Definition is_digit (c : ascii) : bool := (48 <=? byte c) && (byte c <=? 57).

Definition to_lower (c : ascii) : ascii :=
  if is_upper c then of_byte (byte c + 32) else c.
Definition to_upper (c : ascii) : ascii :=
  if is_lower c then of_byte (byte c - 32) else c.

(** [strings.ToLower]. *)
Fixpoint ToLower (s : string) : string :=
  match s with
  | EmptyString => EmptyString
  | String c s' => String (to_lower c) (ToLower s')
  end.

(** [isSeparator] of package [strings]: letters, digits and the
    underscore are not separators, every other ASCII byte is. *)
Definition isSeparator (c : ascii) : bool :=
  if is_upper c || is_lower c || is_digit c || (c =? "_")%char then false
  else byte c <? 128.

Fixpoint title_from (prev : ascii) (s : string) : string :=
  match s with
  | EmptyString => EmptyString
  | String c s' =>
      String (if isSeparator prev then to_upper c else c) (title_from c s')
  end.

(** [strings.Title]. *)
Definition Title (s : string) : string := title_from " "%char s.

(** The value of [n] decimal digits at the head of [s], and what
    follows them. *)
Fixpoint number (n : nat) (acc : Z) (s : string) : option (Z * string) :=
  match n with
  | O => Some (acc, s)
  | S n' =>
      match s with
      | EmptyString => None
      | String c s' =>
          if is_digit c then number n' (acc * 10 + (byte c - 48)) s'
          else None
      end
  end.

Definition expect (c : ascii) (s : string) : option string :=
  match s with
  | String c' s' => if (c =? c')%char then Some s' else None
  | EmptyString => None
  end.

Definition is_leap (y : Z) : bool :=
  (y mod 4 =? 0) && (negb (y mod 100 =? 0) || (y mod 400 =? 0)).

Definition days_in (y m : Z) : Z :=
  if m =? 2 then (if is_leap y then 29 else 28)
  else if (m =? 4) || (m =? 6) || (m =? 9) || (m =? 11) then 30
  else 31.

(** Days from January 1 of year 1 to the given date of the proleptic
    Gregorian calendar. *)
Definition days_from_civil (y m d : Z) : Z :=
  let y' := if m <=? 2 then y - 1 else y in
  let era := y' / 400 in
  let yoe := y' - era * 400 in
  let doy := (153 * (if 2 <? m then m - 3 else m + 9) + 2) / 5 + d - 1 in
  let doe := yoe * 365 + yoe / 4 - yoe / 100 + doy in
  era * 146097 + doe - 306.

Definition bind_opt {A B : Type} (o : option A) (k : A -> option B)
  : option B :=
  match o with
  | Some a => k a
  | None => None
  end.

Definition parse_utc (value : string) : option time.Time :=
  bind_opt (number 4 0 value) (fun '(y, s) =>
  bind_opt (expect "-" s) (fun s =>
  bind_opt (number 2 0 s) (fun '(m, s) =>
  bind_opt (expect "-" s) (fun s =>
  bind_opt (number 2 0 s) (fun '(d, s) =>
  bind_opt (expect "T" s) (fun s =>
  bind_opt (number 2 0 s) (fun '(hh, s) =>
  bind_opt (expect ":" s) (fun s =>
  bind_opt (number 2 0 s) (fun '(mm, s) =>
  bind_opt (expect ":" s) (fun s =>
  bind_opt (number 2 0 s) (fun '(ss, s) =>
  bind_opt (expect "Z" s) (fun s =>
    if (s =? "")%string && (1 <=? m) && (m <=? 12) && (1 <=? d) &&
       (d <=? days_in y m) && (hh <? 24) && (mm <? 60) && (ss <? 60)
    then Some ((((days_from_civil y m d * 24 + hh) * 60 + mm) * 60 + ss)
               * time.Second)
    else None)))))))))))).

(** [time.Parse]; the layout is not looked at. *)
Definition Parse (layout value : string) : Result time.Time :=
  match parse_utc value with
  | Some t => Ok t
  | None => Err ("parsing time " ++ value)
  end.

(** A JSON string literal, for text that needs no escape. *)
Definition quote (s : string) : string := dquote ++ s ++ dquote.

End ascii_library.

(* ================================================================= *)
(** ** Vocabulary of the properties *)

(** A review whose summary [getPRFeedback] keeps. *)
Definition is_summary (r : review.t) : bool :=
  negb (review.Body r =? "")%string && (review.State r =? "COMMENTED")%string.

(** The positional arguments of a command line: what is left once the
    flags (anything that starts with a dash) and the value that follows
    [--repo] or [-R] are taken out.  [skip] tells that the head is such a
    value. *)
Fixpoint positionals_from (skip : bool) (rest : list string) : list string :=
  match rest with
  | [] => []
  | arg :: rest' =>
      if skip then positionals_from false rest'
      else if (arg =? "--repo")%string || (arg =? "-R")%string
           then positionals_from true rest'
      else if strings.HasPrefix arg "-" then positionals_from false rest'
      else arg :: positionals_from false rest'
  end.

Definition positionals : list string -> list string := positionals_from false.

(** The positive integers among positional arguments, in order. *)
Fixpoint pr_numbers (ps : list string) : list Z :=
  match ps with
  | [] => []
  | arg :: ps' =>
      match positive_number arg with
      | Some num => num :: pr_numbers ps'
      | None => pr_numbers ps'
      end
  end.

(** The non-empty positional arguments that are not positive integers. *)
Definition directories (ps : list string) : list string :=
  filter (fun arg => is_nil (positive_number arg) && negb (arg =? "")%string)
         ps.

(** "The first numeric argument wins as PR number", for one command line
    on one host. *)
Definition first_number_wins (host : Host) (os_Args : list string) : Prop :=
  forall w a w',
    main_arguments host os_Args w = (Return a, w') ->
    args.prNumber a = hd 0 (pr_numbers (positionals (tl os_Args))).

(** "The four pointer fields are emitted as nullable integers", for one
    comment: each is a member of the object, [null] for the nil
    pointer. *)
Definition pointer_fields_nullable (c : ReviewComment.t) : Prop :=
  let m := members_ReviewComment c in
  member "line" m = Some (of_ptr (ReviewComment.Line c)) /\
  member "start_line" m = Some (of_ptr (ReviewComment.StartLine c)) /\
  member "original_line" m = Some (of_ptr (ReviewComment.OriginalLine c)) /\
  member "in_reply_to_id" m = Some (of_ptr (ReviewComment.InReplyTo c)).

(** A host on which every directory exists and no command runs. *)
Definition quiet_host : Host :=
  mkHost (fun _ _ => Err "exec: not found")
         (fun _ => Err "unexpected end of JSON input")
         (fun _ => false).

(** A world with nothing written yet, whose clock stands at [now]. *)
Definition still_world (now : time.Time) : World :=
  mkWorld "" "" (fun _ => now).

(** Two worlds that a run cannot tell apart by what it prints: the same
    standard output so far and the same clock readings to come. *)
Definition agree (w1 w2 : World) : Prop :=
  stdout w1 = stdout w2 /\ forall k, clock w1 k = clock w2 k.

(** A computation whose result and output are the same from worlds that
    agree. *)
Definition deterministic {A : Type} (m : IO A) : Prop :=
  forall w1 w2, agree w1 w2 ->
    fst (m w1) = fst (m w2) /\ agree (snd (m w1)) (snd (m w2)).

(** "Rendering the same aggregate twice produces byte-identical output",
    for one aggregate in one format: two runs that start with the same
    standard output end with the same standard output, whatever their
    clocks. *)
Definition renders_identically
           (time_Parse : string -> string -> Result time.Time)
           (strings_ToLower strings_Title json_quote : string -> string)
           (jsonOutput : bool) (feedback : PRFeedback.t) : Prop :=
  forall w1 w2,
    stdout w1 = stdout w2 ->
    stdout (snd (main_output time_Parse strings_ToLower strings_Title
                             json_quote jsonOutput feedback w1))
    = stdout (snd (main_output time_Parse strings_ToLower strings_Title
                               json_quote jsonOutput feedback w2)).

(** An aggregate with one general comment, written on January 1, 2024 at
    midnight UTC, which is instant [63839664000] in seconds. *)
Definition one_comment : PRFeedback.t :=
  PRFeedback.mk 117 "Add certificate management"
    "https://github.com/o/r/pull/117" []
    [ReviewComment.mk 2 "Looks good overall" "" None None None "" "bob"
                      "MEMBER" "unresolved" None "2024-01-01T00:00:00Z"
                      "2024-01-01T00:00:00Z" false ""]
    [].

(** *** Sample responses, on which the properties are run *)

Definition top_level_comment : reviewComment.t :=
  reviewComment.mk 1001 "Consider a more specific error message here"
    "src/main.go" (Some 42) None (Some 40) "@@ -40,3 +40,3 @@" "MEMBER"
    "alice" None "2024-01-01T00:00:00Z" "2024-01-01T00:00:00Z" false "line".

Definition reply_comment : reviewComment.t :=
  reviewComment.mk 1002 "Done" "src/main.go" (Some 42) None (Some 40)
    "@@ -40,3 +40,3 @@" "OWNER" "carol" (Some 1001)
    "2024-01-01T01:00:00Z" "2024-01-01T01:00:00Z" false "line".

Definition sample_issueComment : issueComment.t :=
  issueComment.mk 2001 "Thanks for the patch" "NONE" "dave"
    "2024-01-01T02:00:00Z" "2024-01-01T02:00:00Z".

Definition commented_review : review.t :=
  review.mk 3001 "A few remarks inline" "COMMENTED" "alice" "MEMBER"
    "2024-01-01T03:00:00Z".

Definition changes_requested_review : review.t :=
  review.mk 3002 "Please fix the tests" "CHANGES_REQUESTED" "erin" "MEMBER"
    "2024-01-01T04:00:00Z".

Definition empty_review : review.t :=
  review.mk 3003 "" "COMMENTED" "alice" "MEMBER" "2024-01-01T05:00:00Z".

Definition sample_client : RESTClient :=
  mkRESTClient
    (fun _ => Ok (pr.mk 117 "Add certificate management"
                        "https://github.com/o/r/pull/117"))
    (fun _ => Ok [top_level_comment; reply_comment])
    (fun _ => Ok [sample_issueComment])
    (fun _ => Ok [commented_review; changes_requested_review; empty_review]).

Definition failed_check : check.t :=
  check.mk "Shellcheck" "COMPLETED" "FAILURE"
    "https://github.com/o/r/actions/runs/16637926739/job/123" "CI"
    "2024-01-01T00:00:00Z" "2024-01-01T00:00:06Z".

Definition passed_check : check.t :=
  check.mk "Build" "COMPLETED" "SUCCESS"
    "https://github.com/o/r/actions/runs/16637926739/job/124" "CI"
    "2024-01-01T00:00:00Z" "2024-01-01T00:01:00Z".

Definition cancelled_check : check.t :=
  check.mk "Deploy preview" "COMPLETED" "CANCELLED"
    "https://ci.example.com/builds/77" "" "" "".

Definition sample_rollup : list check.t :=
  [failed_check; passed_check; cancelled_check].

(** A host on which [gh] answers and the answer parses to
    [sample_rollup]. *)
Definition sample_host : Host :=
  mkHost (fun _ _ => Ok "{}")
         (fun _ => Ok sample_rollup)
         (fun _ => false).

(** The aggregate [getPRFeedback] builds from the sample responses. *)
Definition sample_feedback : PRFeedback.t :=
  PRFeedback.mk 117 "Add certificate management"
    "https://github.com/o/r/pull/117"
    [of_reviewComment top_level_comment]
    [of_issueComment sample_issueComment; of_review commented_review]
    [statusCheck_of failed_check; statusCheck_of cancelled_check].

(* ================================================================= *)
(** ** Vocabulary of the further properties *)

(** The relative time a comment block shows when the clock reads [now]:
    nothing for a comment without a creation time or with one that does
    not parse. *)
Definition ago_at (time_Parse : string -> string -> Result time.Time)
           (createdAt : string) (now : time.Time) : string :=
  if (createdAt =? "")%string then ""
  else match time_Parse time.RFC3339 createdAt with
       | Ok t => formatTimeAgo (time.Sub now t)
       | Err _ => ""
       end.

(** Whether one of the segments is ["runs"]. *)
Definition has_runs (segments : list string) : bool :=
  existsb (String.eqb "runs") segments.

Definition is_json_flag (arg : string) : bool :=
  (arg =? "--json")%string || (arg =? "-j")%string.

Definition is_repo_flag (arg : string) : bool :=
  (arg =? "--repo")%string || (arg =? "-R")%string.

(** The arguments of a command line that are read as arguments, and those
    that are read as the value of a [--repo] or [-R] before them; [skip]
    tells that the head is such a value. *)
Fixpoint arguments_from (skip : bool) (rest : list string) : list string :=
  match rest with
  | [] => []
  | arg :: rest' =>
      if skip then arguments_from false rest'
      else arg :: arguments_from (is_repo_flag arg) rest'
  end.

Fixpoint repo_values_from (skip : bool) (rest : list string) : list string :=
  match rest with
  | [] => []
  | arg :: rest' =>
      if skip then arg :: repo_values_from false rest'
      else repo_values_from (is_repo_flag arg) rest'
  end.

(** What [printHelp] writes. *)
Definition usage : string :=
  Eval vm_compute in stdout (snd (printHelp (mkWorld "" "" (fun _ => 0)))).

(** The two ways in which the process ends before its work is done: with
    status 0 after the version or the usage text, standard error
    untouched, or with status 1 after one or more lines on standard error
    that start with ["Error"], standard output untouched. *)
Definition ends_early (w : World) (code : Z) (w' : World) : Prop :=
  (code = 0 /\ stderr w' = stderr w /\
   (stdout w' = stdout w ++ "gh-pr-feedback v1.2.0" ++ nl \/
    stdout w' = stdout w ++ usage))
  \/ (code = 1 /\ stdout w' = stdout w /\
      exists msg, stderr w' = stderr w ++ "Error" ++ msg ++ nl).

(** A computation that returns to its caller, only adds to standard
    output, leaves standard error alone and reads the clock [n] times. *)
Definition runs_on {A : Type} (m : IO A) (n : nat) : Prop :=
  forall w,
    exists a w',
      m w = (Return a, w')
      /\ (exists out, stdout w' = stdout w ++ out)
      /\ stderr w' = stderr w
      /\ forall k, clock w' k = clock w (n + k)%nat.

(** Whether a comment block reads the clock: 1 when the comment has a
    creation time that parses, 0 otherwise. *)
Definition timed (time_Parse : string -> string -> Result time.Time)
           (c : ReviewComment.t) : nat :=
  if (ReviewComment.CreatedAt c =? "")%string then O
  else match time_Parse time.RFC3339 (ReviewComment.CreatedAt c) with
       | Ok _ => 1%nat
       | Err _ => O
       end.

Definition clock_reads (time_Parse : string -> string -> Result time.Time)
           (feedback : PRFeedback.t) : nat :=
  (list_sum (map (timed time_Parse) (PRFeedback.GeneralIssues feedback))
   + list_sum (map (timed time_Parse) (PRFeedback.Comments feedback)))%nat.

(** A platform on which everything succeeds: the client answers with the
    sample responses, the current branch has PR 42 of [o/r]. *)
Definition sample_platform : Platform :=
  mkPlatform (Ok "/home/dev/r") (fun _ => Ok sample_host) (Ok sample_client)
             (fun _ => Ok 42) (fun _ => Ok "o/r").

(** The same platform with a current branch that has no parsable PR. *)
Definition detached_platform : Platform :=
  mkPlatform (Ok "/home/dev/r") (fun _ => Ok sample_host) (Ok sample_client)
             (fun _ => Err "unexpected end of JSON input")
             (fun _ => Err "unexpected end of JSON input").

(** What a whole number of seconds looks like as a duration, in integer
    arithmetic. *)
Definition duration_in_seconds (k : Z) : string :=
  if k <? 60 then strconv.Itoa k ++ "s"
  else if k <? 3600 then
    strconv.Itoa (k / 60) ++ "m " ++ strconv.Itoa (k mod 60) ++ "s"
  else
    strconv.Itoa (k / 3600) ++ "h " ++ strconv.Itoa (k / 60 mod 60) ++ "m".

(** Whether [p] holds of the [n] integers from [lo] on. *)
Fixpoint holds_from (lo : Z) (n : nat) (p : Z -> bool) : bool :=
  match n with
  | O => true
  | S n' => p lo && holds_from (lo + 1) n' p
  end.

(* ================================================================= *)
(** * Properties *)

(** ** Loops that append what passes a test *)

Lemma fold_left_append_filter {A B : Type} (p : A -> bool) (f : A -> B)
      (xs : list A) (acc : list B) :
  fold_left (fun acc x => if p x then (acc ++ [f x])%list else acc) xs acc
  = (acc ++ map f (filter p xs))%list.
Proof.
  revert acc.
  induction xs as [|x xs IH]; intros acc; simpl.
  - now rewrite app_nil_r.
  - rewrite IH. destruct (p x); simpl.
    + now rewrite <- app_assoc.
    + reflexivity.
Qed.

Lemma fold_left_append_map {A B : Type} (f : A -> B)
      (xs : list A) (acc : list B) :
  fold_left (fun acc x => (acc ++ [f x])%list) xs acc = (acc ++ map f xs)%list.
Proof.
  revert acc.
  induction xs as [|x xs IH]; intros acc; simpl.
  - now rewrite app_nil_r.
  - rewrite IH. now rewrite <- app_assoc.
Qed.

Lemma add_reviewComments_eq reviewComments comments :
  add_reviewComments reviewComments comments
  = (comments ++
     map of_reviewComment
         (filter (fun c => is_nil (reviewComment.InReplyToID c)) reviewComments))%list.
Proof. apply fold_left_append_filter. Qed.

Lemma add_issueComments_eq issueComments generalIssues :
  add_issueComments issueComments generalIssues
  = (generalIssues ++ map of_issueComment issueComments)%list.
Proof. apply fold_left_append_map. Qed.

Lemma add_reviews_eq reviews generalIssues :
  add_reviews reviews generalIssues
  = (generalIssues ++ map of_review (filter is_summary reviews))%list.
Proof. apply (fold_left_append_filter is_summary of_review). Qed.

Lemma failing_checks_eq rollup :
  failing_checks rollup
  = map statusCheck_of
        (filter (fun c => is_failing (check.Conclusion c)) rollup).
Proof.
  unfold failing_checks.
  now rewrite (fold_left_append_filter
                 (fun c => is_failing (check.Conclusion c)) statusCheck_of).
Qed.

Lemma is_failing_iff conclusion :
  is_failing conclusion = true <->
  conclusion = "FAILURE" \/ conclusion = "ERROR" \/ conclusion = "CANCELLED".
Proof.
  unfold is_failing.
  rewrite !orb_true_iff, !String.eqb_eq. tauto.
Qed.

Lemma statusCheck_of_Conclusion c :
  StatusCheck.Conclusion (statusCheck_of c) = check.Conclusion c.
Proof.
  unfold statusCheck_of.
  destruct (strings.Contains _ _); [destruct (negb _)|]; reflexivity.
Qed.

Lemma statusCheck_of_DetailsURL c :
  StatusCheck.DetailsURL (statusCheck_of c) = check.DetailsURL c.
Proof.
  unfold statusCheck_of.
  destruct (strings.Contains _ _); [destruct (negb _)|]; reflexivity.
Qed.

(** What [getPRFeedback] returns when it returns an aggregate. *)
Lemma getPRFeedback_Ok host client repo prNumber w fb w' :
  getPRFeedback host client repo prNumber w = (Return (Ok fb), w') ->
  exists p reviewComments issueComments reviews,
    Get_pr client (endpoint repo prNumber) = Ok p /\
    Get_reviewComments client (reviewEndpoint repo prNumber) = Ok reviewComments /\
    Get_issueComments client (issueEndpoint repo prNumber) = Ok issueComments /\
    Get_reviews client (reviewsEndpoint repo prNumber) = Ok reviews /\
    PRFeedback.PRNumber fb = pr.Number p /\
    PRFeedback.Title fb = pr.Title p /\
    PRFeedback.URL fb = pr.HTMLURL p /\
    PRFeedback.Comments fb = add_reviewComments reviewComments [] /\
    PRFeedback.GeneralIssues fb
      = add_reviews reviews (add_issueComments issueComments []) /\
    PRFeedback.StatusChecks fb
      = match getStatusChecks host repo prNumber with
        | Ok statusChecks => statusChecks
        | Err _ => []
        end.
Proof.
  unfold getPRFeedback, wrap, ret, bind, eprint.
  destruct (Get_pr client _) as [p|e]; [|discriminate].
  destruct (Get_reviewComments client _) as [rc|e]; [|discriminate].
  destruct (Get_issueComments client _) as [ic|e]; [|discriminate].
  destruct (Get_reviews client _) as [rv|e]; [|discriminate].
  destruct (getStatusChecks host repo prNumber) as [sc|e];
    intros H; inversion H; subst; clear H;
    exists p, rc, ic, rv; simpl; repeat split; reflexivity.
Qed.

(* ================================================================= *)
(** ** Anchored comments (C1) *)

(** C1.  Whenever [getPRFeedback] returns an aggregate, its [Comments] are
    exactly the review comments of the response whose [in_reply_to_id] is
    null, in the order of the response, each mapped by [of_reviewComment]:
    no comment of the aggregate has a reply linkage, a reply of the
    response has no image among them, every top-level comment of the
    response has its image among them, and the image carries the author,
    the association and the path and line fields unchanged with the state
    ["unresolved"]. *)
Theorem getPRFeedback_Comments_top_level
        host client repo prNumber w fb w' raw :
  Get_reviewComments client (reviewEndpoint repo prNumber) = Ok raw ->
  getPRFeedback host client repo prNumber w = (Return (Ok fb), w') ->
  PRFeedback.Comments fb
    = map of_reviewComment
          (filter (fun c => is_nil (reviewComment.InReplyToID c)) raw)
  /\ (forall r, In r (PRFeedback.Comments fb) ->
        ReviewComment.InReplyTo r = None /\
        ReviewComment.State r = "unresolved")
  /\ (forall c, In c raw -> reviewComment.InReplyToID c <> None ->
        ~ In (of_reviewComment c) (PRFeedback.Comments fb))
  /\ (forall c, In c raw -> reviewComment.InReplyToID c = None ->
        In (of_reviewComment c) (PRFeedback.Comments fb))
  /\ (forall c,
        ReviewComment.Author (of_reviewComment c) = reviewComment.User_Login c /\
        ReviewComment.AuthorAssoc (of_reviewComment c) = reviewComment.AuthorAssoc c /\
        ReviewComment.Path (of_reviewComment c) = reviewComment.Path c /\
        ReviewComment.Line (of_reviewComment c) = reviewComment.Line c /\
        ReviewComment.StartLine (of_reviewComment c) = reviewComment.StartLine c /\
        ReviewComment.OriginalLine (of_reviewComment c) = reviewComment.OriginalLine c /\
        ReviewComment.State (of_reviewComment c) = "unresolved").
Proof.
  intros Hraw Hrun.
  destruct (getPRFeedback_Ok _ _ _ _ _ _ _ Hrun)
    as (p & rc & ic & rv & _ & Hrc & _ & _ & _ & _ & _ & Hc & _).
  rewrite Hraw in Hrc. injection Hrc as <-.
  rewrite add_reviewComments_eq in Hc. simpl in Hc.
  assert (Hin : forall r, In r (PRFeedback.Comments fb) ->
                  exists c, In c raw /\ reviewComment.InReplyToID c = None /\
                            r = of_reviewComment c).
  { intros r Hr. rewrite Hc in Hr. apply in_map_iff in Hr.
    destruct Hr as (c & <- & Hcin). apply filter_In in Hcin.
    destruct Hcin as [Hcin Hnil]. exists c. repeat split; trivial.
    destruct (reviewComment.InReplyToID c); [discriminate|reflexivity]. }
  split; [exact Hc|]. split; [|split; [|split]].
  - intros r Hr. destruct (Hin r Hr) as (c & _ & Hnil & ->).
    simpl. now rewrite Hnil.
  - intros c _ Hreply Himg. destruct (Hin _ Himg) as (c' & _ & Hnil & Heq).
    apply (f_equal ReviewComment.InReplyTo) in Heq. simpl in Heq.
    congruence.
  - intros c Hcin Hnil. rewrite Hc. apply in_map. apply filter_In.
    split; [assumption|]. now rewrite Hnil.
  - intros c. repeat split.
Qed.

(* ================================================================= *)
(** ** Failing checks (C2) *)

Lemma getStatusChecks_Ok host repo prNumber checks :
  getStatusChecks host repo prNumber = Ok checks ->
  exists output rollup,
    exec_Output host "gh"
      ["pr"; "view"; strconv.Itoa prNumber; "--repo"; repo;
       "--json"; "statusCheckRollup"] = Ok output /\
    json_Unmarshal_rollup host output = Ok rollup /\
    checks = failing_checks rollup.
Proof.
  unfold getStatusChecks, wrap.
  destruct (exec_Output host _ _) as [output|e]; [|discriminate].
  destruct (json_Unmarshal_rollup host output) as [rollup|e] eqn:Hparse;
    [|discriminate].
  intros H. injection H as <-. now exists output, rollup.
Qed.

Lemma In_failing_checks s rollup :
  In s (failing_checks rollup) <->
  exists c, In c rollup /\ is_failing (check.Conclusion c) = true /\
            s = statusCheck_of c.
Proof.
  rewrite failing_checks_eq, in_map_iff. split.
  - intros (c & <- & Hc). apply filter_In in Hc. now exists c.
  - intros (c & Hc & Hf & ->). exists c. split; [reflexivity|].
    apply filter_In. now split.
Qed.

(** C2.  When [getStatusChecks] parses a rollup, the list it returns is
    the image, in order, of the entries whose conclusion is FAILURE, ERROR
    or CANCELLED: every check returned has such a conclusion, an entry
    with another conclusion has no image in the list, and every entry with
    such a conclusion has its image in the list. *)
Theorem getStatusChecks_only_failing host repo prNumber output rollup :
  exec_Output host "gh"
    ["pr"; "view"; strconv.Itoa prNumber; "--repo"; repo;
     "--json"; "statusCheckRollup"] = Ok output ->
  json_Unmarshal_rollup host output = Ok rollup ->
  exists checks,
    getStatusChecks host repo prNumber = Ok checks
    /\ checks = map statusCheck_of
                    (filter (fun c => is_failing (check.Conclusion c)) rollup)
    /\ (forall s, In s checks ->
          StatusCheck.Conclusion s = "FAILURE" \/
          StatusCheck.Conclusion s = "ERROR" \/
          StatusCheck.Conclusion s = "CANCELLED")
    /\ (forall c, In c rollup ->
          check.Conclusion c <> "FAILURE" ->
          check.Conclusion c <> "ERROR" ->
          check.Conclusion c <> "CANCELLED" ->
          ~ In (statusCheck_of c) checks)
    /\ (forall c, In c rollup ->
          check.Conclusion c = "FAILURE" \/
          check.Conclusion c = "ERROR" \/
          check.Conclusion c = "CANCELLED" ->
          In (statusCheck_of c) checks).
Proof.
  intros Hexec Hparse.
  exists (failing_checks rollup).
  split; [unfold getStatusChecks; now rewrite Hexec, Hparse|].
  split; [apply failing_checks_eq|].
  split; [|split].
  - intros s Hs. apply In_failing_checks in Hs.
    destruct Hs as (c & _ & Hf & ->).
    rewrite statusCheck_of_Conclusion. now apply is_failing_iff.
  - intros c _ H1 H2 H3 Hs. apply In_failing_checks in Hs.
    destruct Hs as (c' & _ & Hf & Heq).
    apply (f_equal StatusCheck.Conclusion) in Heq.
    rewrite !statusCheck_of_Conclusion in Heq.
    apply is_failing_iff in Hf. rewrite <- Heq in Hf. tauto.
  - intros c Hc Hf. apply In_failing_checks. exists c.
    repeat split; trivial. now apply is_failing_iff.
Qed.

(* ================================================================= *)
(** ** Run identifiers and follow-up commands (C6, C10) *)

Lemma prefix_app p s :
  String.prefix p s = true <-> exists post, s = p ++ post.
Proof.
  revert s. induction p as [|c p IH]; intros s; simpl.
  - split; [intros _; now exists s|now destruct s].
  - destruct s as [|c' s]; simpl.
    + split; [discriminate|]. intros [post H]. discriminate.
    + destruct (Ascii.ascii_dec c c') as [->|Hne].
      * rewrite IH. split; intros [post H]; exists post.
        -- now rewrite H.
        -- now injection H.
      * split; [discriminate|]. intros [post H]. injection H. congruence.
Qed.

Lemma Contains_app s substr :
  strings.Contains s substr = true <->
  exists pre post, s = pre ++ substr ++ post.
Proof.
  induction s as [|c s IH].
  - change (strings.Contains "" substr)
      with (String.prefix substr "" || false).
    rewrite orb_false_r, prefix_app. split.
    + intros [post H]. now exists "", post.
    + intros (pre & post & H). destruct pre; simpl in H.
      * now exists post.
      * discriminate.
  - change (strings.Contains (String c s) substr)
      with (String.prefix substr (String c s) || strings.Contains s substr).
    rewrite orb_true_iff, prefix_app, IH. split.
    + intros [[post H]|(pre & post & H)].
      * now exists "", post.
      * exists (String c pre), post. simpl. now rewrite H.
    + intros (pre & post & H). destruct pre as [|c' pre]; simpl in H.
      * left. now exists post.
      * right. injection H as _ H. now exists pre, post.
Qed.

Lemma append_assoc (a b c : string) : (a ++ b) ++ c = a ++ (b ++ c).
Proof. induction a; simpl; congruence. Qed.

(** A URL of a GitHub Actions run contains ["/runs/"]. *)
Lemma Contains_actions_runs url :
  strings.Contains url "/actions/runs/" = true ->
  strings.Contains url "/runs/" = true.
Proof.
  rewrite !Contains_app. intros (pre & post & H).
  exists (pre ++ "/actions"), post.
  rewrite H, append_assoc. reflexivity.
Qed.

(** C6.  [extractRunID] on the URL of the example is the run number, and
    the check built from an entry with that URL has the command
    ["gh run view 16637926739"]; the check built from an entry whose URL
    does not contain ["/runs/"] has neither a run identifier nor a
    command. *)
Theorem extractRunID_example_and_absence :
  extractRunID "https://github.com/o/r/actions/runs/16637926739/job/123"
    = "16637926739"
  /\ (forall c,
        check.DetailsURL c
          = "https://github.com/o/r/actions/runs/16637926739/job/123" ->
        StatusCheck.RunID (statusCheck_of c) = "16637926739" /\
        StatusCheck.CheckCommand (statusCheck_of c)
          = "gh run view 16637926739")
  /\ (forall c,
        strings.Contains (check.DetailsURL c) "/runs/" = false ->
        StatusCheck.RunID (statusCheck_of c) = "" /\
        StatusCheck.CheckCommand (statusCheck_of c) = "").
Proof.
  split; [reflexivity|]. split.
  - intros c Hurl. unfold statusCheck_of. rewrite Hurl. now vm_compute.
  - intros c Hno. unfold statusCheck_of.
    destruct (strings.Contains (check.DetailsURL c) "/actions/runs/") eqn:Ha.
    + apply Contains_actions_runs in Ha. congruence.
    + now split.
Qed.

(** C10.  In every check returned by [getStatusChecks], the run identifier
    is non-empty exactly when the command is, the command is then
    ["gh run view "] followed by the run identifier, and both are empty
    when the details URL does not contain ["/actions/runs/"] or
    [extractRunID] finds nothing in it. *)
Theorem getStatusChecks_RunID_CheckCommand host repo prNumber checks s :
  getStatusChecks host repo prNumber = Ok checks ->
  In s checks ->
  (StatusCheck.RunID s <> "" <-> StatusCheck.CheckCommand s <> "")
  /\ (StatusCheck.RunID s <> "" ->
        StatusCheck.CheckCommand s = "gh run view " ++ StatusCheck.RunID s)
  /\ (strings.Contains (StatusCheck.DetailsURL s) "/actions/runs/" = false \/
      extractRunID (StatusCheck.DetailsURL s) = "" ->
        StatusCheck.RunID s = "" /\ StatusCheck.CheckCommand s = "").
Proof.
  intros Hrun Hs.
  destruct (getStatusChecks_Ok _ _ _ _ Hrun) as (output & rollup & _ & _ & ->).
  apply In_failing_checks in Hs. destruct Hs as (c & _ & _ & ->).
  rewrite statusCheck_of_DetailsURL. unfold statusCheck_of.
  destruct (strings.Contains (check.DetailsURL c) "/actions/runs/") eqn:Ha.
  - destruct (extractRunID (check.DetailsURL c) =? "")%string eqn:He; simpl.
    + apply String.eqb_eq in He. repeat split; intros; tauto.
    + apply String.eqb_neq in He. split; [|split].
      * split; intros _; [discriminate|assumption].
      * reflexivity.
      * intros [H|H]; [discriminate|contradiction].
  - simpl. repeat split; intros; tauto.
Qed.

(* ================================================================= *)
(** ** Review summaries (C7) *)

Lemma is_summary_iff r :
  is_summary r = true <-> review.Body r <> "" /\ review.State r = "COMMENTED".
Proof.
  unfold is_summary.
  rewrite andb_true_iff, negb_true_iff, String.eqb_neq, String.eqb_eq.
  tauto.
Qed.

Lemma filter_nil {A : Type} (p : A -> bool) (xs : list A) :
  (forall x, In x xs -> p x = false) -> filter p xs = [].
Proof.
  induction xs as [|x xs IH]; intros H; [reflexivity|].
  cbn [filter]. rewrite (H x (or_introl eq_refl)).
  apply IH. intros y Hy. apply H. now right.
Qed.

(** C7.  Whenever [getPRFeedback] returns an aggregate, its
    [GeneralIssues] are the issue comments of the response followed by the
    images of exactly those reviews whose body is non-empty and whose
    state is ["COMMENTED"], in the order of the response.  The image of
    such a review is in the aggregate and carries its id, body, author and
    association, the state ["unresolved"] and its submission time as both
    creation and update time; every general issue of the aggregate is the
    image of an issue comment or of such a review; a review in any other
    state is not among the reviews kept, whatever its body, and when no
    review qualifies nothing is appended to the issue comments. *)
Theorem getPRFeedback_GeneralIssues_summaries
        host client repo prNumber w fb w' issues reviews :
  Get_issueComments client (issueEndpoint repo prNumber) = Ok issues ->
  Get_reviews client (reviewsEndpoint repo prNumber) = Ok reviews ->
  getPRFeedback host client repo prNumber w = (Return (Ok fb), w') ->
  exists kept,
    PRFeedback.GeneralIssues fb
      = (map of_issueComment issues ++ map of_review kept)%list
    /\ kept = filter is_summary reviews
    /\ (forall r, In r kept <->
          In r reviews /\ review.Body r <> "" /\ review.State r = "COMMENTED")
    /\ (forall r, review.State r <> "COMMENTED" -> ~ In r kept)
    /\ (forall r, In r reviews -> review.Body r <> "" ->
          review.State r = "COMMENTED" ->
          In (of_review r) (PRFeedback.GeneralIssues fb))
    /\ (forall g, In g (PRFeedback.GeneralIssues fb) ->
          (exists c, In c issues /\ g = of_issueComment c) \/
          (exists r, In r reviews /\ review.Body r <> "" /\
                     review.State r = "COMMENTED" /\ g = of_review r))
    /\ ((forall r, In r reviews ->
           review.Body r = "" \/ review.State r <> "COMMENTED") ->
        PRFeedback.GeneralIssues fb = map of_issueComment issues)
    /\ List.length (PRFeedback.GeneralIssues fb)
       = (List.length issues + List.length kept)%nat
    /\ (forall r,
          ReviewComment.ID (of_review r) = review.ID r /\
          ReviewComment.Body (of_review r) = review.Body r /\
          ReviewComment.Author (of_review r) = review.User_Login r /\
          ReviewComment.AuthorAssoc (of_review r) = review.AuthorAssoc r /\
          ReviewComment.State (of_review r) = "unresolved" /\
          ReviewComment.CreatedAt (of_review r) = review.SubmittedAt r /\
          ReviewComment.UpdatedAt (of_review r) = review.SubmittedAt r /\
          ReviewComment.Path (of_review r) = "" /\
          ReviewComment.Line (of_review r) = None /\
          ReviewComment.StartLine (of_review r) = None /\
          ReviewComment.OriginalLine (of_review r) = None /\
          ReviewComment.DiffHunk (of_review r) = "" /\
          ReviewComment.InReplyTo (of_review r) = None /\
          ReviewComment.Outdated (of_review r) = false /\
          ReviewComment.SubjectType (of_review r) = "")
    /\ (forall c,
          ReviewComment.ID (of_issueComment c) = issueComment.ID c /\
          ReviewComment.Body (of_issueComment c) = issueComment.Body c /\
          ReviewComment.Author (of_issueComment c) = issueComment.User_Login c /\
          ReviewComment.AuthorAssoc (of_issueComment c)
          = issueComment.AuthorAssoc c /\
          ReviewComment.State (of_issueComment c) = "unresolved" /\
          ReviewComment.CreatedAt (of_issueComment c) = issueComment.CreatedAt c /\
          ReviewComment.UpdatedAt (of_issueComment c)
          = issueComment.UpdatedAt c).
Proof.
  intros Hissues Hreviews Hrun.
  destruct (getPRFeedback_Ok _ _ _ _ _ _ _ Hrun)
    as (p & rc & ic & rv & _ & _ & Hic & Hrv & _ & _ & _ & _ & Hg & _).
  rewrite Hissues in Hic. injection Hic as <-.
  rewrite Hreviews in Hrv. injection Hrv as <-.
  rewrite add_reviews_eq, add_issueComments_eq in Hg. cbn [app] in Hg.
  exists (filter is_summary reviews).
  split; [exact Hg|]. split; [reflexivity|].
  split; [intros r; now rewrite filter_In, is_summary_iff|].
  split.
  { intros r Hstate Hin. apply filter_In in Hin.
    destruct Hin as [_ Hin]. apply is_summary_iff in Hin. tauto. }
  split.
  { intros r Hin Hbody Hstate. rewrite Hg. apply in_or_app. right.
    apply in_map. apply filter_In. split; [exact Hin|].
    now apply is_summary_iff. }
  split.
  { intros g Hin. rewrite Hg in Hin. apply in_app_or in Hin.
    destruct Hin as [Hin|Hin]; apply in_map_iff in Hin;
      destruct Hin as (x & <- & Hx).
    - left. now exists x.
    - right. apply filter_In in Hx. destruct Hx as [Hx Hs].
      apply is_summary_iff in Hs. exists x. tauto. }
  split.
  { intros Hnone. rewrite Hg, filter_nil; [now rewrite app_nil_r|].
    intros r Hin. destruct (is_summary r) eqn:E; [|reflexivity].
    apply is_summary_iff in E. destruct (Hnone r Hin); tauto. }
  split.
  { now rewrite Hg, length_app, !length_map. }
  split; intros x; repeat split.
Qed.

(* ================================================================= *)
(** ** Fatal and non-fatal fetch failures (C8) *)

(** C8.  If one of the four REST fetches fails, [getPRFeedback] returns an
    error, no aggregate, and writes nothing.  If none fails and fetching
    the status checks does, [getPRFeedback] returns an aggregate without
    status checks and has written one warning to standard error. *)
Theorem getPRFeedback_checks_failure_not_fatal host client repo prNumber w :
  let fatal :=
    is_err (Get_pr client (endpoint repo prNumber)) ||
    is_err (Get_reviewComments client (reviewEndpoint repo prNumber)) ||
    is_err (Get_issueComments client (issueEndpoint repo prNumber)) ||
    is_err (Get_reviews client (reviewsEndpoint repo prNumber)) in
  (fatal = true ->
     exists msg,
       getPRFeedback host client repo prNumber w = (Return (Err msg), w))
  /\ (fatal = false ->
      forall e, getStatusChecks host repo prNumber = Err e ->
        exists fb,
          getPRFeedback host client repo prNumber w
            = (Return (Ok fb),
               mkWorld (stdout w)
                       (stderr w ++ "Warning: failed to fetch status checks: "
                                 ++ e ++ nl)
                       (clock w))
          /\ PRFeedback.StatusChecks fb = []).
Proof.
  unfold getPRFeedback, wrap, ret, bind, eprint.
  destruct (Get_pr client _) as [p|e1]; simpl.
  2: { split; [intros _; eauto|discriminate]. }
  destruct (Get_reviewComments client _) as [rc|e2]; simpl.
  2: { split; [intros _; eauto|discriminate]. }
  destruct (Get_issueComments client _) as [ic|e3]; simpl.
  2: { split; [intros _; eauto|discriminate]. }
  destruct (Get_reviews client _) as [rv|e4]; simpl.
  2: { split; [intros _; eauto|discriminate]. }
  split; [discriminate|].
  intros _ e He. rewrite He. simpl. eexists. split; reflexivity.
Qed.

(* ================================================================= *)
(** ** Optional members of the structured document (C4) *)

(** C4, as stated, fails: a comment without an original line has no
    ["original_line"] member at all, where the claim wants a [null]. *)
Lemma original_line_is_omitted_not_null :
  ~ pointer_fields_nullable
      (ReviewComment.mk 7 "nit" "src/main.go" (Some 42) None None ""
                        "alice" "MEMBER" "unresolved" None
                        "2024-01-01T00:00:00Z" "2024-01-01T00:00:00Z"
                        false "line").
Proof.
  unfold pointer_fields_nullable. intros (_ & _ & H & _).
  vm_compute in H. discriminate.
Qed.

(** C4, amended.  In the object of every comment, ["line"],
    ["start_line"] and ["in_reply_to_id"] are always members, [null] for
    the nil pointer and the integer otherwise; ["original_line"] is a
    member only when the pointer is not nil, and then an integer;
    ["diff_hunk"], ["author_association"] and ["subject_type"] are members
    only when non-empty, and ["outdated"] only when true. *)
Theorem members_ReviewComment_optional (c : ReviewComment.t) :
  let m := members_ReviewComment c in
  member "line" m = Some (of_ptr (ReviewComment.Line c))
  /\ member "start_line" m = Some (of_ptr (ReviewComment.StartLine c))
  /\ member "in_reply_to_id" m = Some (of_ptr (ReviewComment.InReplyTo c))
  /\ member "original_line" m
     = match ReviewComment.OriginalLine c with
       | None => None
       | Some n => Some (JNumber n)
       end
  /\ member "diff_hunk" m
     = (if (ReviewComment.DiffHunk c =? "")%string then None
        else Some (JString (ReviewComment.DiffHunk c)))
  /\ member "author_association" m
     = (if (ReviewComment.AuthorAssoc c =? "")%string then None
        else Some (JString (ReviewComment.AuthorAssoc c)))
  /\ member "subject_type" m
     = (if (ReviewComment.SubjectType c =? "")%string then None
        else Some (JString (ReviewComment.SubjectType c)))
  /\ member "outdated" m
     = (if ReviewComment.Outdated c then Some (JBool true) else None).
Proof.
  destruct c as [id body path line start original hunk author assoc state
                 reply created updated outdated subject].
  unfold members_ReviewComment, omitempty_ptr, omitempty_string,
    omitempty_bool, field.
  cbn [ReviewComment.ID ReviewComment.Body ReviewComment.Path
       ReviewComment.Line ReviewComment.StartLine ReviewComment.OriginalLine
       ReviewComment.DiffHunk ReviewComment.Author ReviewComment.AuthorAssoc
       ReviewComment.State ReviewComment.InReplyTo ReviewComment.CreatedAt
       ReviewComment.UpdatedAt ReviewComment.Outdated
       ReviewComment.SubjectType].
  destruct original, (hunk =? "")%string, (assoc =? "")%string,
    (subject =? "")%string, outdated;
    repeat split; reflexivity.
Qed.

(* ================================================================= *)
(** ** Positional arguments (C5) *)

Lemma last_cons {A : Type} (x : A) (xs : list A) (d : A) :
  last (x :: xs) d = last xs x.
Proof.
  revert x d. induction xs as [|y ys IH]; intros x d.
  - reflexivity.
  - change (last (x :: y :: ys) d) with (last (y :: ys) d).
    now rewrite (IH y d), (IH y x).
Qed.

Lemma bind_Return {A B : Type} (m : IO A) (k : A -> IO B) w b w' :
  bind m k w = (Return b, w') ->
  exists a w1, m w = (Return a, w1) /\ k a w1 = (Return b, w').
Proof.
  unfold bind. destruct (m w) as [[a|code] w1]; [|discriminate].
  intros H. now exists a, w1.
Qed.

Lemma os_Exit_not_Return {A : Type} code w (a : A) w' :
  os_Exit code w <> (Return a, w').
Proof. discriminate. Qed.

Ltac exits H :=
  apply bind_Return in H; destruct H as (? & ? & _ & H);
  now apply os_Exit_not_Return in H.

Lemma parse_args_nil_spec a0 :
  args.prNumber a0 = last (pr_numbers (positionals [])) (args.prNumber a0)
  /\ args.targetDir a0
     = (if (args.targetDir a0 =? "")%string
        then hd "" (directories (positionals []))
        else args.targetDir a0).
Proof.
  split; [reflexivity|].
  destruct (args.targetDir a0 =? "")%string eqn:E;
    [apply String.eqb_eq in E; exact E|reflexivity].
Qed.

(** What the loop leaves in [prNumber] and [targetDir] when it runs to
    its end. *)
Lemma parse_args_spec host (n : nat) :
  forall rest a0 w a w',
    (List.length rest <= n)%nat ->
    parse_args host rest a0 w = (Return a, w') ->
    args.prNumber a = last (pr_numbers (positionals rest)) (args.prNumber a0)
    /\ args.targetDir a
       = (if (args.targetDir a0 =? "")%string
          then hd "" (directories (positionals rest))
          else args.targetDir a0).
Proof.
  induction n as [|n IH]; intros rest a0 w a w' Hlen Hrun.
  - destruct rest; [|simpl in Hlen; lia].
    cbn [parse_args] in Hrun.
    injection Hrun as <- _. apply parse_args_nil_spec.
  - destruct rest as [|arg rest].
    { cbn [parse_args] in Hrun.
      injection Hrun as <- _. apply parse_args_nil_spec. }
    cbn [parse_args] in Hrun.
    simpl in Hlen. unfold positionals in *.
    cbn [positionals_from].
    destruct ((arg =? "--version")%string || (arg =? "-v")%string) eqn:Ev.
    { exits Hrun. }
    destruct ((arg =? "--help")%string || (arg =? "-h")%string) eqn:Eh.
    { exits Hrun. }
    destruct ((arg =? "--json")%string || (arg =? "-j")%string) eqn:Ej.
    { apply orb_true_iff in Ej.
      assert (Hdash : strings.HasPrefix arg "-" = true)
        by (destruct Ej as [E|E]; apply String.eqb_eq in E; now subst).
      assert (Hrepo : (arg =? "--repo")%string || (arg =? "-R")%string = false)
        by (destruct Ej as [E|E]; apply String.eqb_eq in E; now subst).
      rewrite Hrepo, Hdash.
      apply IH in Hrun; [exact Hrun|lia]. }
    destruct ((arg =? "--repo")%string || (arg =? "-R")%string) eqn:Er.
    { destruct rest as [|value rest].
      - exits Hrun.
      - cbn [positionals_from]. simpl in Hlen.
        apply IH in Hrun; [exact Hrun|lia]. }
    destruct (strings.HasPrefix arg "-") eqn:Hdash; cbn [negb] in Hrun.
    { apply IH in Hrun; [exact Hrun|lia]. }
    unfold directories. cbn [pr_numbers filter].
    destruct (positive_number arg) as [num|] eqn:Hnum.
    { apply IH in Hrun; [|lia].
      cbn [args.prNumber args.targetDir] in Hrun.
      cbn [is_nil andb]. rewrite last_cons. exact Hrun. }
    cbn [is_nil andb].
    destruct (args.targetDir a0 =? "")%string eqn:Edir.
    + destruct (os_Stat_IsNotExist host arg).
      { exits Hrun. }
      apply IH in Hrun; [|lia].
      cbn [args.prNumber args.targetDir] in Hrun.
      destruct Hrun as [Hnum' Hdir]. split; [exact Hnum'|].
      rewrite Hdir. destruct (arg =? "")%string; reflexivity.
    + apply IH in Hrun; [|lia]. rewrite Edir in Hrun.
      destruct Hrun as [Hnum' Hdir]. split; assumption.
Qed.

(** C5, as stated, fails: with two numbers on the command line the second
    one is the PR number. *)
Lemma second_number_overrides_first :
  ~ first_number_wins quiet_host ["gh-pr-feedback"; "1"; "2"].
Proof.
  intros H.
  specialize (H (still_world 0) (args.mk false "." 2 "") (still_world 0)
                eq_refl).
  vm_compute in H. discriminate.
Qed.

(** C5, amended.  When the argument loop runs to its end, the PR number is
    the last positive integer among the positional arguments (0 when there
    is none), and the target directory is the first non-empty positional
    argument that is not a positive integer (["."] when there is none). *)
Theorem main_arguments_last_number_first_directory host os_Args w a w' :
  main_arguments host os_Args w = (Return a, w') ->
  args.prNumber a = last (pr_numbers (positionals (tl os_Args))) 0
  /\ args.targetDir a = hd "." (directories (positionals (tl os_Args))).
Proof.
  unfold main_arguments, bind.
  destruct (parse_args host (tl os_Args) (args.mk false "" 0 "") w)
    as [[a1|code] w1] eqn:Hrun; [|discriminate].
  apply (parse_args_spec host (List.length (tl os_Args))) in Hrun; [|lia].
  simpl in Hrun. destruct Hrun as [Hnum Hdir].
  destruct (args.targetDir a1 =? "")%string eqn:E; unfold ret;
    intros H; injection H as <- _; simpl.
  - apply String.eqb_eq in E. rewrite E in Hdir.
    split; [assumption|].
    destruct (directories (positionals (tl os_Args))) as [|dir ds] eqn:Eds.
    + reflexivity.
    + simpl in Hdir. subst dir.
      assert (Hin : In "" (directories (positionals (tl os_Args))))
        by (rewrite Eds; now left).
      unfold directories in Hin. apply filter_In in Hin.
      destruct Hin as [_ Hin]. rewrite andb_true_iff in Hin.
      destruct Hin as [_ Hin]. discriminate.
  - split; [assumption|]. rewrite Hdir.
    destruct (directories (positionals (tl os_Args))) as [|dir ds].
    + simpl in Hdir. rewrite Hdir in E. discriminate.
    + reflexivity.
Qed.

(** The amended C5 on a command line with two numbers and two
    directories. *)
Lemma main_arguments_last_number_first_directory_witness :
  args.prNumber (args.mk true "src" 2 "o/r") = 2
  /\ args.targetDir (args.mk true "src" 2 "o/r") = "src".
Proof.
  exact (main_arguments_last_number_first_directory
           quiet_host
           ["gh-pr-feedback"; "1"; "src"; "--repo"; "o/r"; "-j"; "2"; "docs"]
           (still_world 0) (args.mk true "src" 2 "o/r") (still_world 0)
           eq_refl).
Defined.

(* ================================================================= *)
(** ** Two runs of the rendering (C3) *)

Lemma agree_refl_out w1 w2 s :
  agree w1 w2 ->
  agree (mkWorld (stdout w1 ++ s) (stderr w1) (clock w1))
        (mkWorld (stdout w2 ++ s) (stderr w2) (clock w2)).
Proof.
  intros [Hout Hclock]. split; simpl; [now rewrite Hout|assumption].
Qed.

Lemma det_ret {A : Type} (a : A) : deterministic (ret a).
Proof. intros w1 w2 H. now split. Qed.

Lemma det_bind {A B : Type} (m : IO A) (k : A -> IO B) :
  deterministic m -> (forall a, deterministic (k a)) ->
  deterministic (bind m k).
Proof.
  intros Hm Hk w1 w2 H. unfold bind.
  destruct (Hm w1 w2 H) as [Hres Hw].
  destruct (m w1) as [[a1|c1] w1'], (m w2) as [[a2|c2] w2'];
    simpl in Hres, Hw; try discriminate.
  - injection Hres as <-. now apply Hk.
  - injection Hres as <-. now split.
Qed.

Lemma det_print s : deterministic (print s).
Proof.
  intros w1 w2 H. split; [reflexivity|]. now apply agree_refl_out.
Qed.

Lemma det_println s : deterministic (println s).
Proof. apply det_print. Qed.

Lemma det_time_Now : deterministic time_Now.
Proof.
  intros w1 w2 [Hout Hclock]. unfold time_Now. simpl. split.
  - now rewrite Hclock.
  - split; simpl; [assumption|]. intros k. apply Hclock.
Qed.

Lemma det_time_Since t : deterministic (time_Since t).
Proof.
  apply det_bind; [apply det_time_Now|]. intros now. apply det_ret.
Qed.

Lemma det_when b m : deterministic m -> deterministic (when b m).
Proof. intros Hm. destruct b; [exact Hm|apply det_ret]. Qed.

Lemma det_for_range {A : Type} (xs : list A) (body : A -> IO unit) :
  (forall x, deterministic (body x)) -> deterministic (for_range xs body).
Proof.
  intros Hbody. induction xs as [|x xs IH]; simpl.
  - apply det_ret.
  - apply det_bind; [apply Hbody|]. intros _. exact IH.
Qed.

Lemma det_for_range_from {A : Type} (xs : list A) (body : Z -> A -> IO unit) :
  (forall i x, deterministic (body i x)) ->
  forall i, deterministic (for_range_from i xs body).
Proof.
  intros Hbody. induction xs as [|x xs IH]; intros i; simpl.
  - apply det_ret.
  - apply det_bind; [apply Hbody|]. intros _. apply IH.
Qed.

(** Closes a goal [deterministic m] when [m] is built from the operations
    above by sequencing, branching and the two loops. *)
Create HintDb det.
#[export] Hint Resolve det_ret det_print det_println det_time_Since : det.

Ltac det :=
  repeat first
    [ solve [auto 1 with det nocore]
    | apply det_when
    | apply det_for_range; intros
    | apply det_for_range_from; intros
    | apply det_bind; [|intros]
    | match goal with
      | |- deterministic (match ?x with _ => _ end) => destruct x
      end ].

Section Runs.

Variable time_Parse : string -> string -> Result time.Time.
Variable strings_ToLower : string -> string.
Variable strings_Title : string -> string.
Variable json_quote : string -> string.

Lemma det_printDiffHunk diffHunk : deterministic (printDiffHunk diffHunk).
Proof. unfold printDiffHunk. det. Qed.
Hint Resolve det_printDiffHunk : det.

Lemma det_print_general review :
  deterministic (print_general time_Parse strings_ToLower strings_Title
                               review).
Proof. unfold print_general. det. Qed.
Hint Resolve det_print_general : det.

Lemma det_print_comment n i comment :
  deterministic (print_comment time_Parse strings_ToLower n i comment).
Proof. unfold print_comment. det. Qed.
Hint Resolve det_print_comment : det.

Lemma det_print_check check :
  deterministic (print_check time_Parse check).
Proof. unfold print_check. det. Qed.
Hint Resolve det_print_check : det.

Lemma det_printHumanReadable feedback :
  deterministic (printHumanReadable time_Parse strings_ToLower
                                    strings_Title feedback).
Proof.
  unfold printHumanReadable. det.
Qed.

(** C3, amended.  The structured rendering prints the same bytes in two
    runs whatever their clocks.  The human-readable rendering reads the
    clock while it prints ([time.Since] for each comment that has a
    creation time); it prints the same bytes in two runs whose clocks
    give the same readings. *)
Theorem main_output_two_runs feedback :
  (forall w1 w2,
     stdout w1 = stdout w2 ->
     stdout (snd (main_output time_Parse strings_ToLower strings_Title
                              json_quote true feedback w1))
     = stdout (snd (main_output time_Parse strings_ToLower strings_Title
                                json_quote true feedback w2)))
  /\ (forall w1 w2,
        stdout w1 = stdout w2 ->
        (forall k, clock w1 k = clock w2 k) ->
        stdout (snd (main_output time_Parse strings_ToLower strings_Title
                                 json_quote false feedback w1))
        = stdout (snd (main_output time_Parse strings_ToLower strings_Title
                                   json_quote false feedback w2))).
Proof.
  split.
  - intros w1 w2 Hout. simpl. now rewrite Hout.
  - intros w1 w2 Hout Hclock.
    apply (det_printHumanReadable feedback w1 w2). now split.
Qed.

End Runs.

(** C3, as stated, fails: thirty seconds after the comment was written the
    human-readable rendering says "just now", two hours after it says
    "2 hours ago". *)
Lemma human_rendering_depends_on_clock :
  ~ renders_identically ascii_library.Parse ascii_library.ToLower
      ascii_library.Title ascii_library.quote false one_comment.
Proof.
  intros H.
  specialize (H (still_world ((63839664000 + 30) * time.Second))
                (still_world ((63839664000 + 7200) * time.Second))
                eq_refl).
  vm_compute in H. discriminate.
Qed.

(* ================================================================= *)
(** ** Relative times (C9) *)

(** C9.  The six examples of the specification hold.  One nanosecond short
    of 365 days, and so under 365 days, [formatTimeAgo] answers
    ["1 year ago"] and not ["12 months ago"]: [d.Hours()] adds 8759 and
    0.99999999999972 in [float64], which rounds to 8760, and 8760 / 24 is
    365 days.  One second earlier the answer is ["12 months ago"].  In the
    same way, one nanosecond short of 180 days counts as 180 days. *)
Theorem formatTimeAgo_examples_and_year_boundary :
  formatTimeAgo (30 * time.Second) = "just now"
  /\ formatTimeAgo (90 * time.Second) = "1 minute ago"
  /\ formatTimeAgo (7200 * time.Second) = "2 hours ago"
  /\ formatTimeAgo (26 * time.Hour) = "1 day ago"
  /\ formatTimeAgo (40 * 24 * time.Hour) = "1 month ago"
  /\ formatTimeAgo (400 * 24 * time.Hour) = "1 year ago"
  /\ formatTimeAgo (365 * 24 * time.Hour - time.Second) = "12 months ago"
  /\ formatTimeAgo (180 * 24 * time.Hour - time.Nanosecond) = "6 months ago"
  /\ 365 * 24 * time.Hour - time.Nanosecond < 365 * 24 * time.Hour
  /\ float64.to_int (time.Hours (365 * 24 * time.Hour - time.Nanosecond))
     = 8760
  /\ formatTimeAgo (365 * 24 * time.Hour - time.Nanosecond) = "1 year ago".
Proof.
  repeat split; vm_compute; reflexivity.
Qed.

(* ================================================================= *)
(** ** The properties on the sample responses *)

(** C1 on the sample responses: the reply is left out. *)
Lemma getPRFeedback_Comments_top_level_witness :
  PRFeedback.Comments sample_feedback = [of_reviewComment top_level_comment].
Proof.
  exact (proj1 (getPRFeedback_Comments_top_level
                  sample_host sample_client "o/r" 117 (still_world 0)
                  sample_feedback (still_world 0)
                  [top_level_comment; reply_comment] eq_refl eq_refl)).
Defined.

(** C2 on the sample rollup: the passed check is left out. *)
Lemma getStatusChecks_only_failing_witness :
  exists checks,
    getStatusChecks sample_host "o/r" 117 = Ok checks
    /\ checks = [statusCheck_of failed_check; statusCheck_of cancelled_check].
Proof.
  destruct (getStatusChecks_only_failing sample_host "o/r" 117 "{}"
              sample_rollup eq_refl eq_refl) as (checks & Hrun & Heq & _).
  exists checks. split; [exact Hrun|exact Heq].
Defined.

(** C6 on the cancelled check, whose URL has no run in it. *)
Lemma extractRunID_example_and_absence_witness :
  StatusCheck.RunID (statusCheck_of cancelled_check) = ""
  /\ StatusCheck.CheckCommand (statusCheck_of cancelled_check) = "".
Proof.
  exact (proj2 (proj2 extractRunID_example_and_absence)
               cancelled_check eq_refl).
Defined.

(** C7 on the sample responses: of the three reviews only the one in
    state COMMENTED with a body is kept. *)
Lemma getPRFeedback_GeneralIssues_summaries_witness :
  exists kept,
    PRFeedback.GeneralIssues sample_feedback
      = (map of_issueComment [sample_issueComment] ++ map of_review kept)%list
    /\ kept = [commented_review].
Proof.
  destruct (getPRFeedback_GeneralIssues_summaries
              sample_host sample_client "o/r" 117 (still_world 0)
              sample_feedback (still_world 0) [sample_issueComment]
              [commented_review; changes_requested_review; empty_review]
              eq_refl eq_refl eq_refl) as (kept & Hg & Hk & _).
  exists kept. split; [exact Hg|exact Hk].
Defined.

(** C8 on a host where [gh] cannot be run. *)
Lemma getPRFeedback_checks_failure_not_fatal_witness :
  exists fb,
    getPRFeedback quiet_host sample_client "o/r" 117 (still_world 0)
      = (Return (Ok fb),
         mkWorld ""
           ("Warning: failed to fetch status checks: " ++
            "failed to get status checks: exec: not found" ++ nl)
           (fun _ => 0))
    /\ PRFeedback.StatusChecks fb = [].
Proof.
  exact (proj2 (getPRFeedback_checks_failure_not_fatal
                  quiet_host sample_client "o/r" 117 (still_world 0))
               eq_refl "failed to get status checks: exec: not found"
               eq_refl).
Defined.

(** C10 on the failed check of the sample rollup. *)
Lemma getStatusChecks_RunID_CheckCommand_witness :
  StatusCheck.RunID (statusCheck_of failed_check) <> ""
  /\ StatusCheck.CheckCommand (statusCheck_of failed_check)
     = "gh run view 16637926739".
Proof.
  destruct (getStatusChecks_RunID_CheckCommand
              sample_host "o/r" 117
              [statusCheck_of failed_check; statusCheck_of cancelled_check]
              (statusCheck_of failed_check) eq_refl (or_introl eq_refl))
    as (_ & Hcmd & _).
  assert (Hid : StatusCheck.RunID (statusCheck_of failed_check) <> "")
    by (vm_compute; discriminate).
  split; [exact Hid|exact (Hcmd Hid)].
Defined.

(** The amended C3 on two runs at the same instant, one of which has
    already written to standard error. *)
Lemma main_output_two_runs_witness :
  stdout (snd (main_output ascii_library.Parse ascii_library.ToLower
                 ascii_library.Title ascii_library.quote false one_comment
                 (still_world (63839671200 * time.Second))))
  = stdout (snd (main_output ascii_library.Parse ascii_library.ToLower
                   ascii_library.Title ascii_library.quote false one_comment
                   (mkWorld "" "warning" (fun _ => 63839671200 * time.Second)))).
Proof.
  exact (proj2 (main_output_two_runs ascii_library.Parse ascii_library.ToLower
                  ascii_library.Title ascii_library.quote one_comment)
               (still_world (63839671200 * time.Second))
               (mkWorld "" "warning" (fun _ => 63839671200 * time.Second))
               eq_refl (fun _ => eq_refl)).
Defined.

(* ================================================================= *)
(** * Further properties *)

(** ** Splitting on a one-byte separator *)

Lemma prefix_nil s : String.prefix "" s = true.
Proof. now destruct s. Qed.

Lemma split_from_nil sep : strings.split_from sep "" O = [""].
Proof. reflexivity. Qed.

Lemma split_from_sep c s :
  strings.split_from (String c "") (String c s) O
  = "" :: strings.split_from (String c "") s O.
Proof.
  cbn [strings.split_from String.prefix String.length Nat.pred].
  destruct (Ascii.ascii_dec c c) as [_|Hne]; [|contradiction].
  now rewrite prefix_nil.
Qed.

Lemma split_from_other c c' s :
  c <> c' ->
  strings.split_from (String c "") (String c' s) O
  = match strings.split_from (String c "") s O with
    | piece :: pieces => String c' piece :: pieces
    | [] => [String c' ""]
    end.
Proof.
  intros Hne.
  cbn [strings.split_from String.prefix].
  now destruct (Ascii.ascii_dec c c') as [Heq|_]; [contradiction|].
Qed.

Lemma split_from_not_nil c s : strings.split_from (String c "") s O <> [].
Proof.
  induction s as [|c' s IH]; [discriminate|].
  destruct (Ascii.ascii_dec c c') as [<-|Hne].
  - rewrite split_from_sep. discriminate.
  - rewrite (split_from_other _ _ _ Hne).
    destruct (strings.split_from (String c "") s O); discriminate.
Qed.

(** Splitting what is on both sides of a separator, and putting the
    pieces one after the other. *)
Lemma split_from_app c a b :
  strings.split_from (String c "") (a ++ String c b) O
  = (strings.split_from (String c "") a O
     ++ strings.split_from (String c "") b O)%list.
Proof.
  induction a as [|c' a IH].
  - change ("" ++ String c b) with (String c b).
    now rewrite split_from_sep, split_from_nil.
  - change (String c' a ++ String c b) with (String c' (a ++ String c b)).
    destruct (Ascii.ascii_dec c c') as [<-|Hne].
    + now rewrite !split_from_sep, IH.
    + rewrite !(split_from_other _ _ _ Hne), IH.
      pose proof (split_from_not_nil c a) as Hnil.
      destruct (strings.split_from (String c "") a O); [contradiction|].
      reflexivity.
Qed.

Lemma Contains_cons_false c' s substr :
  strings.Contains (String c' s) substr = false ->
  String.prefix substr (String c' s) = false /\
  strings.Contains s substr = false.
Proof.
  change (strings.Contains (String c' s) substr)
    with (String.prefix substr (String c' s) || strings.Contains s substr).
  apply orb_false_iff.
Qed.

(** A string without the separator is its own single piece. *)
Lemma split_from_no_sep c s :
  strings.Contains s (String c "") = false ->
  strings.split_from (String c "") s O = [s].
Proof.
  induction s as [|c' s IH]; intros H; [reflexivity|].
  apply Contains_cons_false in H. destruct H as [Hp Hs].
  destruct (Ascii.ascii_dec c c') as [<-|Hne].
  - cbn [String.prefix] in Hp.
    destruct (Ascii.ascii_dec c c) as [_|Hne]; [|contradiction].
    now rewrite prefix_nil in Hp.
  - now rewrite (split_from_other _ _ _ Hne), (IH Hs).
Qed.

(** No piece contains the separator. *)
Lemma split_from_pieces c s piece :
  In piece (strings.split_from (String c "") s O) ->
  strings.Contains piece (String c "") = false.
Proof.
  revert piece. induction s as [|c' s IH]; intros piece Hin.
  - destruct Hin as [<-|[]]. reflexivity.
  - destruct (Ascii.ascii_dec c c') as [<-|Hne].
    + rewrite split_from_sep in Hin. destruct Hin as [<-|Hin].
      * reflexivity.
      * now apply IH.
    + rewrite (split_from_other _ _ _ Hne) in Hin.
      pose proof (split_from_not_nil c s) as Hnil.
      destruct (strings.split_from (String c "") s O) as [|p ps] eqn:E;
        [contradiction|].
      destruct Hin as [<-|Hin].
      * change (strings.Contains (String c' p) (String c ""))
          with (String.prefix (String c "") (String c' p)
                || strings.Contains p (String c "")).
        cbn [String.prefix].
        destruct (Ascii.ascii_dec c c') as [Heq|_]; [contradiction|].
        apply IH. now left.
      * apply IH. now right.
Qed.

(** The pieces, each followed by the separator, make up the string
    followed by the separator. *)
Lemma split_from_concat c s :
  fold_right (fun piece out => piece ++ String c "" ++ out) ""
             (strings.split_from (String c "") s O)
  = s ++ String c "".
Proof.
  induction s as [|c' s IH]; [reflexivity|].
  destruct (Ascii.ascii_dec c c') as [<-|Hne].
  - rewrite split_from_sep. cbn [fold_right]. now rewrite IH.
  - rewrite (split_from_other _ _ _ Hne).
    pose proof (split_from_not_nil c s) as Hnil.
    destruct (strings.split_from (String c "") s O) as [|p ps];
      [contradiction|].
    cbn [fold_right] in *. cbn [String.append]. now rewrite <- IH.
Qed.

(* ================================================================= *)
(** ** What [extractRunID] finds *)

Lemma append_empty_r (s : string) : s ++ "" = s.
Proof. induction s; simpl; congruence. Qed.

Lemma Split_slash url : strings.Split url "/" = strings.split_from "/" url O.
Proof. reflexivity. Qed.

Lemma extractRunID_loop_first before next after :
  has_runs before = false ->
  extractRunID_loop (before ++ "runs" :: next :: after) = next.
Proof.
  induction before as [|b bs IH]; intros Hno.
  - reflexivity.
  - unfold has_runs in Hno. cbn [existsb] in Hno.
    apply orb_false_iff in Hno. destruct Hno as [Hb Hbs].
    change ((b :: bs) ++ "runs" :: next :: after)%list
      with (b :: (bs ++ "runs" :: next :: after))%list.
    cbn [extractRunID_loop].
    destruct (bs ++ "runs" :: next :: after)%list as [|x rest] eqn:E.
    + destruct bs; discriminate.
    + rewrite String.eqb_sym, Hb. now apply IH.
Qed.

Lemma extractRunID_loop_none parts :
  has_runs (removelast parts) = false ->
  extractRunID_loop parts = "".
Proof.
  induction parts as [|part rest IH]; intros Hno; [reflexivity|].
  cbn [extractRunID_loop].
  destruct rest as [|next rest']; [reflexivity|].
  change (removelast (part :: next :: rest'))
    with (part :: removelast (next :: rest')) in Hno.
  unfold has_runs in Hno. cbn [existsb] in Hno.
  apply orb_false_iff in Hno. destruct Hno as [Hb Hrest].
  rewrite String.eqb_sym, Hb. now apply IH.
Qed.

Lemma extractRunID_loop_piece parts :
  extractRunID_loop parts = "" \/ In (extractRunID_loop parts) parts.
Proof.
  induction parts as [|part rest IH]; [now left|].
  cbn [extractRunID_loop].
  destruct rest as [|next rest']; [now left|].
  destruct (part =? "runs")%string.
  - right. right. now left.
  - destruct IH as [IH|IH]; [now left|right; now right].
Qed.

(** X1.  [extractRunID] returns the segment that follows the first
    segment ["runs"] of the URL, whatever comes before and after: when a
    path has an earlier segment ["runs"] (an owner or a repository of that
    name), it is the segment after that one which is returned. *)
Theorem extractRunID_first_runs url before next after :
  strings.Split url "/" = (before ++ "runs" :: next :: after)%list ->
  has_runs before = false ->
  extractRunID url = next.
Proof.
  intros Hsplit Hno. unfold extractRunID. rewrite Hsplit.
  now apply extractRunID_loop_first.
Qed.

Lemma extractRunID_first_runs_witness :
  extractRunID "https://github.com/runs/r/actions/runs/16637926739/job/1"
  = "r".
Proof.
  exact (extractRunID_first_runs
           "https://github.com/runs/r/actions/runs/16637926739/job/1"
           ["https:"; ""; "github.com"] "r"
           ["actions"; "runs"; "16637926739"; "job"; "1"]
           eq_refl eq_refl).
Defined.

(** X2.  [extractRunID] returns the empty string when no segment of the
    URL other than the last is ["runs"]; a URL that ends in ["/runs"] has
    no run identifier. *)
Theorem extractRunID_no_runs url :
  has_runs (removelast (strings.Split url "/")) = false ->
  extractRunID url = "".
Proof. intros Hno. now apply extractRunID_loop_none. Qed.

Lemma extractRunID_no_runs_witness :
  extractRunID "https://github.com/o/r/actions/runs" = "".
Proof.
  exact (extractRunID_no_runs "https://github.com/o/r/actions/runs" eq_refl).
Defined.

(** X3.  What [extractRunID] returns never contains a slash, so the run
    identifier of a check and the argument of its [gh run view] command
    are a single path segment. *)
Theorem extractRunID_no_slash url :
  strings.Contains (extractRunID url) "/" = false.
Proof.
  unfold extractRunID. rewrite Split_slash.
  destruct (extractRunID_loop_piece (strings.split_from "/" url O))
    as [-> | Hin].
  - reflexivity.
  - now apply split_from_pieces with (s := url).
Qed.

(** X4.  For a details URL made of a base without a segment ["runs"],
    then ["/actions/runs/"], an identifier without a slash, and possibly a
    slash and more, [extractRunID] returns the identifier; when the
    identifier is not empty, the check built from an entry with that URL
    has it as run identifier and ["gh run view "] followed by it as
    command. *)
Theorem statusCheck_of_actions_run c base id rest :
  has_runs (strings.Split base "/") = false ->
  strings.Contains id "/" = false ->
  check.DetailsURL c = base ++ "/actions/runs/" ++ id ++ rest ->
  rest = "" \/ (exists rest', rest = "/" ++ rest') ->
  extractRunID (check.DetailsURL c) = id
  /\ (id <> "" ->
      StatusCheck.RunID (statusCheck_of c) = id /\
      StatusCheck.CheckCommand (statusCheck_of c) = "gh run view " ++ id).
Proof.
  intros Hbase Hid Hurl Hrest.
  assert (Hsegments :
            exists after,
              strings.Split (check.DetailsURL c) "/"
              = ((strings.Split base "/" ++ ["actions"])
                 ++ "runs" :: id :: after)%list).
  { rewrite Hurl, !Split_slash.
    change (base ++ "/actions/runs/" ++ id ++ rest)
      with (base ++ String "/" ("actions" ++ String "/"
                                 ("runs" ++ String "/" (id ++ rest)))).
    rewrite split_from_app.
    rewrite (split_from_app "/"%char "actions").
    rewrite (split_from_app "/"%char "runs").
    destruct Hrest as [->|[rest' ->]].
    - exists []. rewrite append_empty_r.
      rewrite (split_from_no_sep _ _ Hid). now rewrite <- app_assoc.
    - exists (strings.split_from "/" rest' O).
      change (id ++ "/" ++ rest') with (id ++ String "/" rest').
      rewrite split_from_app, (split_from_no_sep _ _ Hid).
      now rewrite <- app_assoc. }
  destruct Hsegments as [after Hsegments].
  assert (Hextract : extractRunID (check.DetailsURL c) = id).
  { unfold extractRunID. rewrite Hsegments.
    apply extractRunID_loop_first.
    unfold has_runs in *. rewrite existsb_app, Hbase. reflexivity. }
  split; [exact Hextract|].
  intros Hne. unfold statusCheck_of.
  assert (Hcontains :
            strings.Contains (check.DetailsURL c) "/actions/runs/" = true).
  { apply Contains_app. exists base, (id ++ rest). now rewrite Hurl. }
  rewrite Hcontains, Hextract.
  apply String.eqb_neq in Hne. rewrite Hne. now split.
Qed.

Lemma statusCheck_of_actions_run_witness :
  extractRunID (check.DetailsURL failed_check) = "16637926739"
  /\ ("16637926739" <> "" ->
      StatusCheck.RunID (statusCheck_of failed_check) = "16637926739" /\
      StatusCheck.CheckCommand (statusCheck_of failed_check)
      = "gh run view " ++ "16637926739").
Proof.
  exact (statusCheck_of_actions_run failed_check "https://github.com/o/r"
           "16637926739" "/job/123" eq_refl eq_refl eq_refl
           (or_intror (ex_intro _ "job/123" eq_refl))).
Defined.

(* ================================================================= *)
(** ** The argument loop: flags, exits and composition *)

Lemma print_run s w :
  print s w = (Return tt, mkWorld (stdout w ++ s) (stderr w) (clock w)).
Proof. reflexivity. Qed.

Lemma eprint_run s w :
  eprint s w = (Return tt, mkWorld (stdout w) (stderr w ++ s) (clock w)).
Proof. reflexivity. Qed.

Lemma bind_print {B : Type} s (k : unit -> IO B) w :
  bind (print s) k w = k tt (mkWorld (stdout w ++ s) (stderr w) (clock w)).
Proof. reflexivity. Qed.

Lemma bind_println {B : Type} s (k : unit -> IO B) w :
  bind (println s) k w
  = k tt (mkWorld (stdout w ++ s ++ nl) (stderr w) (clock w)).
Proof. reflexivity. Qed.

Lemma bind_time_Since {B : Type} t (k : time.Duration -> IO B) w :
  bind (time_Since t) k w
  = k (time.Sub (clock w O) t)
      (mkWorld (stdout w) (stderr w) (fun i => clock w (S i))).
Proof. reflexivity. Qed.

Lemma bind_ret {A B : Type} (a : A) (k : A -> IO B) w :
  bind (ret a) k w = k a w.
Proof. reflexivity. Qed.

Lemma printHelp_run w :
  printHelp w = (Return tt, mkWorld (stdout w ++ usage) (stderr w) (clock w)).
Proof.
  destruct w as [out err clk]. unfold printHelp.
  repeat (rewrite bind_println; cbn [stdout stderr clock]).
  unfold println. rewrite print_run. cbn [stdout stderr clock].
  rewrite !append_assoc. reflexivity.
Qed.

(** What the loop leaves in [jsonOutput] and [repoName], and in the world,
    when it runs to its end. *)
Lemma parse_args_flags host (n : nat) :
  forall rest a0 w a w',
    (List.length rest <= n)%nat ->
    parse_args host rest a0 w = (Return a, w') ->
    w' = w
    /\ args.jsonOutput a
       = args.jsonOutput a0 || existsb is_json_flag (arguments_from false rest)
    /\ args.repoName a
       = last (repo_values_from false rest) (args.repoName a0).
Proof.
  induction n as [|n IH]; intros rest a0 w a w' Hlen Hrun.
  - destruct rest; [|simpl in Hlen; lia].
    cbn [parse_args] in Hrun. injection Hrun as <- <-.
    cbn. now rewrite orb_false_r.
  - destruct rest as [|arg rest].
    { cbn [parse_args] in Hrun. injection Hrun as <- <-.
      cbn. now rewrite orb_false_r. }
    cbn [parse_args] in Hrun. simpl in Hlen.
    cbn [arguments_from repo_values_from existsb].
    unfold is_json_flag at 1. unfold is_repo_flag.
    destruct ((arg =? "--version")%string || (arg =? "-v")%string) eqn:Ev.
    { exits Hrun. }
    destruct ((arg =? "--help")%string || (arg =? "-h")%string) eqn:Eh.
    { exits Hrun. }
    destruct ((arg =? "--json")%string || (arg =? "-j")%string) eqn:Ej.
    { apply orb_true_iff in Ej.
      assert (Hrepo : (arg =? "--repo")%string || (arg =? "-R")%string = false)
        by (destruct Ej as [E|E]; apply String.eqb_eq in E; now subst).
      rewrite Hrepo.
      apply IH in Hrun; [|lia]. cbn [args.jsonOutput args.repoName] in Hrun.
      destruct Hrun as (Hw & Hj & Hr). rewrite Hj.
      repeat split; trivial. now rewrite !orb_true_r. }
    destruct ((arg =? "--repo")%string || (arg =? "-R")%string) eqn:Er.
    { destruct rest as [|value rest].
      - exits Hrun.
      - simpl in Hlen. apply IH in Hrun; [|lia].
        cbn [args.jsonOutput args.repoName] in Hrun.
        cbn [arguments_from repo_values_from].
        destruct Hrun as (Hw & Hj & Hr).
        repeat split; trivial. now rewrite last_cons. }
    cbn [orb].
    destruct (strings.HasPrefix arg "-") eqn:Hdash; cbn [negb] in Hrun.
    { apply IH in Hrun; [exact Hrun|lia]. }
    destruct (positive_number arg) as [num|] eqn:Hnum.
    { apply IH in Hrun; [exact Hrun|lia]. }
    destruct (args.targetDir a0 =? "")%string eqn:Edir.
    + destruct (os_Stat_IsNotExist host arg).
      { exits Hrun. }
      apply IH in Hrun; [exact Hrun|lia].
    + apply IH in Hrun; [exact Hrun|lia].
Qed.

(** X5.  When the argument loop runs to its end it has written nothing, to
    standard output or to standard error, and the clock has not been
    read. *)
Theorem main_arguments_silent host os_Args w a w' :
  main_arguments host os_Args w = (Return a, w') -> w' = w.
Proof.
  unfold main_arguments. intros Hrun.
  apply bind_Return in Hrun. destruct Hrun as (a1 & w1 & Hparse & Hret).
  apply (parse_args_flags host (List.length (tl os_Args))) in Hparse; [|lia].
  destruct Hparse as [-> _].
  destruct (args.targetDir a1 =? "")%string; unfold ret in Hret;
    now injection Hret as _ <-.
Qed.

Lemma main_arguments_silent_witness : still_world 0 = still_world 0.
Proof.
  exact (main_arguments_silent quiet_host
           ["gh-pr-feedback"; "1"; "src"; "--repo"; "o/r"; "-j"; "2"; "docs"]
           (still_world 0) (args.mk true "src" 2 "o/r") (still_world 0)
           eq_refl).
Defined.

(** X6.  When the argument loop runs to its end, the JSON format is
    requested exactly when [--json] or [-j] is among the arguments read as
    arguments, and the repository is the value of the last [--repo] or
    [-R] (empty when there is none).  What follows [--repo] is its value
    whatever it looks like: [--repo --json] names a repository
    ["--json"] and does not request JSON. *)
Theorem main_arguments_flags host os_Args w a w' :
  main_arguments host os_Args w = (Return a, w') ->
  args.jsonOutput a = existsb is_json_flag (arguments_from false (tl os_Args))
  /\ args.repoName a = last (repo_values_from false (tl os_Args)) "".
Proof.
  unfold main_arguments. intros Hrun.
  apply bind_Return in Hrun. destruct Hrun as (a1 & w1 & Hparse & Hret).
  apply (parse_args_flags host (List.length (tl os_Args))) in Hparse; [|lia].
  destruct Hparse as (_ & Hj & Hr). cbn in Hj, Hr.
  destruct (args.targetDir a1 =? "")%string; unfold ret in Hret;
    injection Hret as <- _; cbn; now split.
Qed.

Lemma main_arguments_flags_witness :
  args.jsonOutput (args.mk false "." 0 "--json") = false
  /\ args.repoName (args.mk false "." 0 "--json") = "--json".
Proof.
  exact (main_arguments_flags quiet_host
           ["gh-pr-feedback"; "--repo"; "o/r"; "-R"; "--json"]
           (still_world 0) (args.mk false "." 0 "--json") (still_world 0)
           eq_refl).
Defined.

Lemma bind_Exit {A B : Type} (m : IO A) (k : A -> IO B) w code w' :
  bind m k w = (Exit code, w') ->
  m w = (Exit code, w') \/
  exists a w1, m w = (Return a, w1) /\ k a w1 = (Exit code, w').
Proof.
  unfold bind. destruct (m w) as [[a|c] w1]; intros H.
  - right. now exists a, w1.
  - left. now injection H as <- <-.
Qed.

Lemma println_exit_run {A : Type} s code w :
  (println s ;; @os_Exit A code) w
  = (Exit code, mkWorld (stdout w ++ s ++ nl) (stderr w) (clock w)).
Proof. reflexivity. Qed.

Lemma printHelp_exit_run {A : Type} code w :
  (printHelp ;; @os_Exit A code) w
  = (Exit code, mkWorld (stdout w ++ usage) (stderr w) (clock w)).
Proof. unfold bind. now rewrite printHelp_run. Qed.

Lemma eprint_exit_run {A : Type} s code w :
  (eprint s ;; @os_Exit A code) w
  = (Exit code, mkWorld (stdout w) (stderr w ++ s) (clock w)).
Proof. reflexivity. Qed.

Lemma ends_early_version w :
  ends_early w 0
    (mkWorld (stdout w ++ "gh-pr-feedback v1.2.0" ++ nl) (stderr w) (clock w)).
Proof. left. repeat split. now left. Qed.

Lemma ends_early_help w :
  ends_early w 0 (mkWorld (stdout w ++ usage) (stderr w) (clock w)).
Proof. left. repeat split. now right. Qed.

Lemma ends_early_error w msg :
  ends_early w 1
    (mkWorld (stdout w) (stderr w ++ "Error" ++ msg ++ nl) (clock w)).
Proof. right. repeat split. now exists msg. Qed.

Lemma parse_args_exits host (n : nat) :
  forall rest a0 w code w',
    (List.length rest <= n)%nat ->
    parse_args host rest a0 w = (Exit code, w') ->
    ends_early w code w'.
Proof.
  induction n as [|n IH]; intros rest a0 w code w' Hlen Hrun.
  - destruct rest; [|simpl in Hlen; lia]. discriminate.
  - destruct rest as [|arg rest]; [discriminate|].
    cbn [parse_args] in Hrun. simpl in Hlen.
    destruct ((arg =? "--version")%string || (arg =? "-v")%string).
    { rewrite println_exit_run in Hrun. injection Hrun as <- <-.
      apply ends_early_version. }
    destruct ((arg =? "--help")%string || (arg =? "-h")%string).
    { rewrite printHelp_exit_run in Hrun. injection Hrun as <- <-.
      apply ends_early_help. }
    destruct ((arg =? "--json")%string || (arg =? "-j")%string).
    { apply IH in Hrun; [exact Hrun|lia]. }
    destruct ((arg =? "--repo")%string || (arg =? "-R")%string).
    { destruct rest as [|value rest].
      - rewrite eprint_exit_run in Hrun. injection Hrun as <- <-.
        apply (ends_early_error w ": --repo requires a value").
      - simpl in Hlen. apply IH in Hrun; [exact Hrun|lia]. }
    destruct (strings.HasPrefix arg "-"); cbn [negb] in Hrun.
    { apply IH in Hrun; [exact Hrun|lia]. }
    destruct (positive_number arg) as [num|].
    { apply IH in Hrun; [exact Hrun|lia]. }
    destruct (args.targetDir a0 =? "")%string.
    + destruct (os_Stat_IsNotExist host arg).
      { rewrite eprint_exit_run in Hrun. injection Hrun as <- <-.
        right. repeat split.
        exists (": Directory '" ++ arg ++ "' does not exist").
        cbn [stderr]. do 2 f_equal. cbn. now rewrite !append_assoc. }
      apply IH in Hrun; [exact Hrun|lia].
    + apply IH in Hrun; [exact Hrun|lia].
Qed.

(** X7.  Reading a command line in two parts: when the loop runs to its
    end on the first part, reading the whole line is reading the second
    part from the variables the first part leaves.  (A first part that
    ends in a [--repo] without its value does not run to its end.) *)
Theorem parse_args_app host pre post a0 w a1 w1 :
  parse_args host pre a0 w = (Return a1, w1) ->
  parse_args host (pre ++ post) a0 w = parse_args host post a1 w1.
Proof.
  remember (List.length pre) as n eqn:Hn.
  assert (Hlen : (List.length pre <= n)%nat) by lia. clear Hn.
  revert pre a0 Hlen.
  induction n as [|n IH]; intros pre a0 Hlen Hrun.
  - destruct pre; [|simpl in Hlen; lia].
    cbn [parse_args] in Hrun. now injection Hrun as <- <-.
  - destruct pre as [|arg pre].
    { cbn [parse_args] in Hrun. now injection Hrun as <- <-. }
    change ((arg :: pre) ++ post)%list with (arg :: (pre ++ post))%list.
    cbn [parse_args] in Hrun |- *. simpl in Hlen.
    destruct ((arg =? "--version")%string || (arg =? "-v")%string).
    { exits Hrun. }
    destruct ((arg =? "--help")%string || (arg =? "-h")%string).
    { exits Hrun. }
    destruct ((arg =? "--json")%string || (arg =? "-j")%string).
    { apply IH; [lia|exact Hrun]. }
    destruct ((arg =? "--repo")%string || (arg =? "-R")%string).
    { destruct pre as [|value pre].
      - exits Hrun.
      - simpl in Hlen.
        change ((value :: pre) ++ post)%list with (value :: (pre ++ post))%list.
        apply IH; [lia|exact Hrun]. }
    destruct (strings.HasPrefix arg "-"); cbn [negb] in Hrun |- *.
    { apply IH; [lia|exact Hrun]. }
    destruct (positive_number arg) as [num|].
    { apply IH; [lia|exact Hrun]. }
    destruct (args.targetDir a0 =? "")%string.
    + destruct (os_Stat_IsNotExist host arg).
      { exits Hrun. }
      apply IH; [lia|exact Hrun].
    + apply IH; [lia|exact Hrun].
Qed.

Lemma parse_args_app_witness :
  parse_args quiet_host (["7"; "--repo"; "o/r"] ++ ["--json"; "8"])%list
             (args.mk false "" 0 "") (still_world 0)
  = parse_args quiet_host ["--json"; "8"] (args.mk false "" 7 "o/r")
               (still_world 0).
Proof.
  exact (parse_args_app quiet_host ["7"; "--repo"; "o/r"] ["--json"; "8"]
           (args.mk false "" 0 "") (still_world 0)
           (args.mk false "" 7 "o/r") (still_world 0) eq_refl).
Defined.

(* ================================================================= *)
(** ** The structured document: names, nulls and general issues *)

Ltac distinct_names :=
  repeat (constructor; [cbn; intuition discriminate|]); constructor.

(** X8.  No object of the structured document has two members of the same
    name: not a comment, not a status check, not the document itself,
    whichever optional members are present. *)
Theorem members_names_distinct :
  (forall c, NoDup (map fst (members_ReviewComment c)))
  /\ (forall c, NoDup (map fst (members_StatusCheck c)))
  /\ (forall f, NoDup (map fst (members_PRFeedback f))).
Proof.
  split; [|split].
  - intros c. unfold members_ReviewComment, omitempty_ptr, omitempty_string,
      omitempty_bool, field.
    destruct (ReviewComment.OriginalLine c),
      (ReviewComment.DiffHunk c =? "")%string,
      (ReviewComment.AuthorAssoc c =? "")%string,
      (ReviewComment.Outdated c),
      (ReviewComment.SubjectType c =? "")%string;
      cbn [app map fst]; distinct_names.
  - intros c. unfold members_StatusCheck, omitempty_string, field.
    destruct (StatusCheck.WorkflowName c =? "")%string,
      (StatusCheck.RunID c =? "")%string,
      (StatusCheck.CheckCommand c =? "")%string;
      cbn [app map fst]; distinct_names.
  - intros f. unfold members_PRFeedback, field.
    cbn [app map fst]. distinct_names.
Qed.

(** X9.  In the structured document of an aggregate that [getPRFeedback]
    returns, ["comments"] is [null] exactly when every review comment of
    the response is a reply, and ["general_issues"] is [null] exactly when
    the response has no issue comment and no review with a body in state
    ["COMMENTED"]: the slices of the aggregate are only grown by [append]
    and stay nil otherwise.  When one of them is an array, its elements
    are the objects of the comments kept, in the order of the response. *)
Theorem getPRFeedback_collections_null
        host client repo prNumber w fb w' raw issues reviews :
  Get_reviewComments client (reviewEndpoint repo prNumber) = Ok raw ->
  Get_issueComments client (issueEndpoint repo prNumber) = Ok issues ->
  Get_reviews client (reviewsEndpoint repo prNumber) = Ok reviews ->
  getPRFeedback host client repo prNumber w = (Return (Ok fb), w') ->
  let m := members_PRFeedback fb in
  (member "comments" m = Some JNull <->
   forall c, In c raw -> reviewComment.InReplyToID c <> None)
  /\ (member "general_issues" m = Some JNull <->
      issues = [] /\
      forall r, In r reviews ->
        review.Body r = "" \/ review.State r <> "COMMENTED")
  /\ (forall elements,
        member "comments" m = Some (JArray elements) ->
        elements
        = map (fun c => JObject (members_ReviewComment (of_reviewComment c)))
              (filter (fun c => is_nil (reviewComment.InReplyToID c)) raw))
  /\ (forall elements,
        member "general_issues" m = Some (JArray elements) ->
        elements
        = (map (fun c => JObject (members_ReviewComment (of_issueComment c)))
               issues ++
           map (fun r => JObject (members_ReviewComment (of_review r)))
               (filter is_summary reviews))%list).
Proof.
  intros Hraw Hissues Hreviews Hrun.
  destruct (getPRFeedback_Ok _ _ _ _ _ _ _ Hrun)
    as (p & rc & ic & rv & _ & Hrc & Hic & Hrv & _ & _ & _ & Hc & Hg & _).
  rewrite Hraw in Hrc. injection Hrc as <-.
  rewrite Hissues in Hic. injection Hic as <-.
  rewrite Hreviews in Hrv. injection Hrv as <-.
  rewrite add_reviewComments_eq in Hc. cbn [app] in Hc.
  rewrite add_reviews_eq, add_issueComments_eq in Hg. cbn [app] in Hg.
  assert (Hcomments :
            member "comments" (members_PRFeedback fb)
            = Some (of_slice (fun c => JObject (members_ReviewComment c))
                             (PRFeedback.Comments fb))) by reflexivity.
  assert (Hgeneral :
            member "general_issues" (members_PRFeedback fb)
            = Some (of_slice (fun c => JObject (members_ReviewComment c))
                             (PRFeedback.GeneralIssues fb))) by reflexivity.
  cbv zeta. rewrite Hcomments, Hgeneral, Hc, Hg.
  clear Hcomments Hgeneral.
  assert (Hfilter :
            forall (A : Type) (q : A -> bool) (xs : list A),
              filter q xs = [] <-> forall x, In x xs -> q x = false).
  { intros A q xs. split; [|apply filter_nil].
    intros Hnil x Hx. destruct (q x) eqn:E; [|reflexivity].
    assert (Hin : In x (filter q xs)) by (apply filter_In; now split).
    rewrite Hnil in Hin. contradiction. }
  assert (Hslice :
            forall (A : Type) (g : A -> JSON) (xs : list A),
              (Some (of_slice g xs) = Some JNull <-> xs = []) /\
              (forall elements,
                 Some (of_slice g xs) = Some (JArray elements) ->
                 elements = map g xs)).
  { intros A g xs. destruct xs as [|x xs]; cbn [of_slice].
    - split; [tauto|discriminate].
    - split; [split; discriminate|].
      intros elements H. now injection H as <-. }
  split; [|split; [|split]].
  - rewrite (proj1 (Hslice _ _ _)). split.
    + intros Hnil c Hin Hreply.
      apply map_eq_nil in Hnil.
      apply (proj1 (Hfilter _ _ _) Hnil) in Hin.
      rewrite Hreply in Hin. discriminate.
    + intros Hall. rewrite filter_nil; [reflexivity|].
      intros c Hin. specialize (Hall c Hin).
      destruct (reviewComment.InReplyToID c); [reflexivity|contradiction].
  - rewrite (proj1 (Hslice _ _ _)). split.
    + intros Hnil. apply app_eq_nil in Hnil. destruct Hnil as [Hi Hr].
      apply map_eq_nil in Hi. apply map_eq_nil in Hr.
      split; [exact Hi|]. intros r Hin.
      apply (proj1 (Hfilter _ _ _) Hr) in Hin.
      destruct (review.Body r =? "")%string eqn:Eb.
      * left. now apply String.eqb_eq.
      * right. intros Hs. unfold is_summary in Hin.
        apply String.eqb_eq in Hs. rewrite Eb, Hs in Hin. discriminate.
    + intros [-> Hall]. rewrite filter_nil; [reflexivity|].
      intros r Hin. destruct (is_summary r) eqn:E; [|reflexivity].
      apply is_summary_iff in E. destruct (Hall r Hin); tauto.
  - intros elements H. apply (proj2 (Hslice _ _ _)) in H.
    now rewrite H, map_map.
  - intros elements H. apply (proj2 (Hslice _ _ _)) in H.
    now rewrite H, map_app, !map_map.
Qed.

Lemma getPRFeedback_collections_null_witness :
  member "comments" (members_PRFeedback sample_feedback) = Some JNull <->
  forall c, In c [top_level_comment; reply_comment] ->
            reviewComment.InReplyToID c <> None.
Proof.
  exact (proj1 (getPRFeedback_collections_null
                  sample_host sample_client "o/r" 117 (still_world 0)
                  sample_feedback (still_world 0)
                  [top_level_comment; reply_comment] [sample_issueComment]
                  [commented_review; changes_requested_review; empty_review]
                  eq_refl eq_refl eq_refl eq_refl)).
Defined.

(** X10.  In the structured document, the member ["status_checks"] of an
    aggregate that [getPRFeedback] returns is [null] exactly when fetching
    the status checks failed or found no failing check: the document does
    not tell the two apart. *)
Theorem status_checks_null host client repo prNumber w fb w' :
  getPRFeedback host client repo prNumber w = (Return (Ok fb), w') ->
  member "status_checks" (members_PRFeedback fb) = Some JNull <->
  is_err (getStatusChecks host repo prNumber) = true \/
  getStatusChecks host repo prNumber = Ok [].
Proof.
  intros Hrun.
  destruct (getPRFeedback_Ok _ _ _ _ _ _ _ Hrun)
    as (p & rc & ic & rv & _ & _ & _ & _ & _ & _ & _ & _ & _ & Hs).
  unfold members_PRFeedback, field. cbn [app member String.eqb].
  rewrite Hs.
  destruct (getStatusChecks host repo prNumber) as [[|s checks]|e];
    cbn [of_slice is_err].
  - split; auto.
  - split; [discriminate|]. intros [H|H]; discriminate.
  - split; auto.
Qed.

Lemma status_checks_null_witness :
  member "status_checks"
    (members_PRFeedback
       (PRFeedback.mk 117 "Add certificate management"
          "https://github.com/o/r/pull/117"
          [of_reviewComment top_level_comment]
          [of_issueComment sample_issueComment; of_review commented_review]
          []))
  = Some JNull.
Proof.
  apply (status_checks_null quiet_host sample_client "o/r" 117 (still_world 0)
           _ (mkWorld ""
                ("Warning: failed to fetch status checks: " ++
                 "failed to get status checks: exec: not found" ++ nl)
                (fun _ => 0)) eq_refl).
  left. reflexivity.
Defined.

Lemma In_GeneralIssues host client repo prNumber w fb w' g :
  getPRFeedback host client repo prNumber w = (Return (Ok fb), w') ->
  In g (PRFeedback.GeneralIssues fb) ->
  (exists c, g = of_issueComment c) \/ (exists r, g = of_review r).
Proof.
  intros Hrun Hin.
  destruct (getPRFeedback_Ok _ _ _ _ _ _ _ Hrun)
    as (p & rc & ic & rv & _ & _ & _ & _ & _ & _ & _ & _ & Hg & _).
  rewrite Hg, add_reviews_eq, add_issueComments_eq in Hin.
  cbn [app] in Hin. apply in_app_or in Hin.
  destruct Hin as [Hin|Hin]; apply in_map_iff in Hin;
    destruct Hin as (x & <- & _); eauto.
Qed.

(** X11.  In the structured document, every object of ["general_issues"]
    of an aggregate that [getPRFeedback] returns carries the members of a
    file comment that are not optional, with fixed values: ["path"] is
    the empty string, ["line"], ["start_line"] and ["in_reply_to_id"] are
    [null], ["state"] is ["unresolved"]; it has none of
    ["original_line"], ["diff_hunk"], ["outdated"], ["subject_type"]. *)
Theorem general_issues_members host client repo prNumber w fb w' g :
  getPRFeedback host client repo prNumber w = (Return (Ok fb), w') ->
  In g (PRFeedback.GeneralIssues fb) ->
  let m := members_ReviewComment g in
  member "path" m = Some (JString "")
  /\ member "line" m = Some JNull
  /\ member "start_line" m = Some JNull
  /\ member "in_reply_to_id" m = Some JNull
  /\ member "state" m = Some (JString "unresolved")
  /\ member "original_line" m = None
  /\ member "diff_hunk" m = None
  /\ member "outdated" m = None
  /\ member "subject_type" m = None.
Proof.
  intros Hrun Hin.
  destruct (In_GeneralIssues _ _ _ _ _ _ _ _ Hrun Hin) as [[c ->]|[r ->]];
    cbv zeta; unfold members_ReviewComment, of_issueComment, of_review,
      omitempty_ptr, omitempty_string, omitempty_bool, field;
    cbn [ReviewComment.ID ReviewComment.Body ReviewComment.Path
         ReviewComment.Line ReviewComment.StartLine ReviewComment.OriginalLine
         ReviewComment.DiffHunk ReviewComment.Author ReviewComment.AuthorAssoc
         ReviewComment.State ReviewComment.InReplyTo ReviewComment.CreatedAt
         ReviewComment.UpdatedAt ReviewComment.Outdated
         ReviewComment.SubjectType String.eqb].
  - destruct (issueComment.AuthorAssoc c =? "")%string;
      repeat split; reflexivity.
  - destruct (review.AuthorAssoc r =? "")%string;
      repeat split; reflexivity.
Qed.

Lemma general_issues_members_witness :
  member "path" (members_ReviewComment (of_review commented_review))
  = Some (JString "").
Proof.
  exact (proj1 (general_issues_members
                  sample_host sample_client "o/r" 117 (still_world 0)
                  sample_feedback (still_world 0)
                  (of_review commented_review) eq_refl
                  (or_intror (or_introl eq_refl)))).
Defined.

(** X12.  In the structured document, the object of every check that
    [getStatusChecks] returns has a member ["run_id"] exactly when it has
    a member ["check_command"], and then the command is ["gh run view "]
    followed by the run identifier. *)
Theorem status_check_run_id_member host repo prNumber checks s :
  getStatusChecks host repo prNumber = Ok checks ->
  In s checks ->
  let m := members_StatusCheck s in
  (member "run_id" m = None /\ member "check_command" m = None)
  \/ (exists id,
        id <> "" /\
        member "run_id" m = Some (JString id) /\
        member "check_command" m = Some (JString ("gh run view " ++ id))).
Proof.
  intros Hrun Hs.
  destruct (getStatusChecks_Ok _ _ _ _ Hrun) as (output & rollup & _ & _ & ->).
  apply In_failing_checks in Hs. destruct Hs as (c & _ & _ & ->).
  cbv zeta. unfold statusCheck_of.
  destruct (strings.Contains (check.DetailsURL c) "/actions/runs/");
    [destruct (extractRunID (check.DetailsURL c) =? "")%string eqn:He|];
    cbn [negb]; unfold members_StatusCheck, omitempty_string, field;
    cbn [StatusCheck.Name StatusCheck.Status StatusCheck.Conclusion
         StatusCheck.DetailsURL StatusCheck.WorkflowName StatusCheck.RunID
         StatusCheck.StartedAt StatusCheck.CompletedAt
         StatusCheck.CheckCommand].
  - left. destruct (check.WorkflowName c =? "")%string; now split.
  - right. exists (extractRunID (check.DetailsURL c)).
    apply String.eqb_neq in He as Hne. rewrite He.
    split; [exact Hne|].
    destruct (check.WorkflowName c =? "")%string; now split.
  - left. destruct (check.WorkflowName c =? "")%string; now split.
Qed.

Lemma status_check_run_id_member_witness :
  (member "run_id" (members_StatusCheck (statusCheck_of cancelled_check))
   = None /\
   member "check_command" (members_StatusCheck (statusCheck_of cancelled_check))
   = None)
  \/ (exists id,
        id <> "" /\
        member "run_id" (members_StatusCheck (statusCheck_of cancelled_check))
        = Some (JString id) /\
        member "check_command"
               (members_StatusCheck (statusCheck_of cancelled_check))
        = Some (JString ("gh run view " ++ id))).
Proof.
  exact (status_check_run_id_member sample_host "o/r" 117
           [statusCheck_of failed_check; statusCheck_of cancelled_check]
           (statusCheck_of cancelled_check) eq_refl
           (or_intror (or_introl eq_refl))).
Defined.

(* ================================================================= *)
(** ** [getPRFeedback]: which error, and what it leaves alone *)

(** X13.  The error [getPRFeedback] returns is that of the first fetch
    that fails, in the order PR details, review comments, issue comments,
    reviews, with the message of the failure after a prefix that names
    the fetch; nothing has been written when it is returned. *)
Theorem getPRFeedback_first_error host client repo prNumber w msg w' :
  getPRFeedback host client repo prNumber w = (Return (Err msg), w') ->
  w' = w
  /\ ((exists e,
         Get_pr client (endpoint repo prNumber) = Err e /\
         msg = "failed to fetch PR details: " ++ e)
      \/ (exists e,
            is_err (Get_pr client (endpoint repo prNumber)) = false /\
            Get_reviewComments client (reviewEndpoint repo prNumber) = Err e /\
            msg = "failed to fetch review comments: " ++ e)
      \/ (exists e,
            is_err (Get_pr client (endpoint repo prNumber)) = false /\
            is_err (Get_reviewComments client (reviewEndpoint repo prNumber))
            = false /\
            Get_issueComments client (issueEndpoint repo prNumber) = Err e /\
            msg = "failed to fetch issue comments: " ++ e)
      \/ (exists e,
            is_err (Get_pr client (endpoint repo prNumber)) = false /\
            is_err (Get_reviewComments client (reviewEndpoint repo prNumber))
            = false /\
            is_err (Get_issueComments client (issueEndpoint repo prNumber))
            = false /\
            Get_reviews client (reviewsEndpoint repo prNumber) = Err e /\
            msg = "failed to fetch reviews: " ++ e)).
Proof.
  unfold getPRFeedback, wrap, ret, bind, eprint.
  destruct (Get_pr client _) as [p|e1].
  2: { intros H. injection H as <- <-. split; [reflexivity|]. left. eauto. }
  destruct (Get_reviewComments client _) as [rc|e2].
  2: { intros H. injection H as <- <-. split; [reflexivity|].
       right. left. eauto. }
  destruct (Get_issueComments client _) as [ic|e3].
  2: { intros H. injection H as <- <-. split; [reflexivity|].
       right. right. left. eauto. }
  destruct (Get_reviews client _) as [rv|e4].
  2: { intros H. injection H as <- <-. split; [reflexivity|].
       right. right. right. eauto 6. }
  destruct (getStatusChecks host repo prNumber); discriminate.
Qed.

Lemma getPRFeedback_first_error_witness : still_world 0 = still_world 0.
Proof.
  exact (proj1 (getPRFeedback_first_error sample_host
                  (mkRESTClient (fun _ => Err "HTTP 404")
                                (fun _ => Err "HTTP 500")
                                (fun _ => Ok []) (fun _ => Ok []))
                  "o/r" 117 (still_world 0)
                  "failed to fetch PR details: HTTP 404"
                  (still_world 0) eq_refl)).
Defined.

(** X14.  [getPRFeedback] always returns to its caller (it never ends the
    process), writes nothing to standard output and does not read the
    clock; it writes to standard error only the warning about the status
    checks, and only when the four fetches succeed and the status checks
    cannot be fetched. *)
Theorem getPRFeedback_frame host client repo prNumber w :
  exists r w',
    getPRFeedback host client repo prNumber w = (Return r, w')
    /\ stdout w' = stdout w
    /\ clock w' = clock w
    /\ (stderr w' = stderr w
        \/ exists fb e,
             r = Ok fb /\
             getStatusChecks host repo prNumber = Err e /\
             stderr w'
             = stderr w ++ "Warning: failed to fetch status checks: " ++ e ++ nl).
Proof.
  unfold getPRFeedback, wrap, ret, bind, eprint.
  destruct (Get_pr client _) as [p|e1]; [|eauto 8].
  destruct (Get_reviewComments client _) as [rc|e2]; [|eauto 8].
  destruct (Get_issueComments client _) as [ic|e3]; [|eauto 8].
  destruct (Get_reviews client _) as [rv|e4]; [|eauto 8].
  destruct (getStatusChecks host repo prNumber) as [sc|e]; [eauto 8|].
  do 2 eexists. repeat split. right. eauto.
Qed.

(* ================================================================= *)
(** ** What a returned check copies from the rollup *)

(** X15.  Every check that [getStatusChecks] returns is built from an
    entry of the rollup with a failing conclusion, and has the name, the
    status, the conclusion, the details URL, the workflow name and the
    two times of that entry, whether or not a run identifier is found in
    the URL. *)
Theorem getStatusChecks_copies host repo prNumber output rollup checks s :
  exec_Output host "gh"
    ["pr"; "view"; strconv.Itoa prNumber; "--repo"; repo;
     "--json"; "statusCheckRollup"] = Ok output ->
  json_Unmarshal_rollup host output = Ok rollup ->
  getStatusChecks host repo prNumber = Ok checks ->
  In s checks ->
  exists c,
    In c rollup
    /\ StatusCheck.Name s = check.Name c
    /\ StatusCheck.Status s = check.Status c
    /\ StatusCheck.Conclusion s = check.Conclusion c
    /\ StatusCheck.DetailsURL s = check.DetailsURL c
    /\ StatusCheck.WorkflowName s = check.WorkflowName c
    /\ StatusCheck.StartedAt s = check.StartedAt c
    /\ StatusCheck.CompletedAt s = check.CompletedAt c.
Proof.
  intros Hexec Hparse Hrun Hs.
  unfold getStatusChecks in Hrun. rewrite Hexec, Hparse in Hrun.
  injection Hrun as <-.
  apply In_failing_checks in Hs. destruct Hs as (c & Hc & _ & ->).
  exists c. split; [exact Hc|].
  unfold statusCheck_of.
  destruct (strings.Contains _ _); [destruct (negb _)|]; repeat split.
Qed.

Lemma getStatusChecks_copies_witness :
  exists c,
    In c sample_rollup
    /\ StatusCheck.Name (statusCheck_of failed_check) = check.Name c
    /\ StatusCheck.Status (statusCheck_of failed_check) = check.Status c
    /\ StatusCheck.Conclusion (statusCheck_of failed_check) = check.Conclusion c
    /\ StatusCheck.DetailsURL (statusCheck_of failed_check) = check.DetailsURL c
    /\ StatusCheck.WorkflowName (statusCheck_of failed_check)
       = check.WorkflowName c
    /\ StatusCheck.StartedAt (statusCheck_of failed_check) = check.StartedAt c
    /\ StatusCheck.CompletedAt (statusCheck_of failed_check)
       = check.CompletedAt c.
Proof.
  exact (getStatusChecks_copies sample_host "o/r" 117 "{}" sample_rollup
           [statusCheck_of failed_check; statusCheck_of cancelled_check]
           (statusCheck_of failed_check) eq_refl eq_refl eq_refl
           (or_introl eq_refl)).
Defined.

(* ================================================================= *)
(** ** What the rendering does to the world *)

Lemma runs_on_eq {A : Type} (m : IO A) n n' :
  runs_on m n -> n = n' -> runs_on m n'.
Proof. now intros H <-. Qed.

Lemma runs_ret {A : Type} (a : A) : runs_on (ret a) 0.
Proof.
  intros w. exists a, w. repeat split.
  exists "". now rewrite append_empty_r.
Qed.

Lemma runs_print s : runs_on (print s) 0.
Proof.
  intros w. do 2 eexists. split; [reflexivity|]. repeat split.
  now exists s.
Qed.

Lemma runs_println s : runs_on (println s) 0.
Proof. apply runs_print. Qed.

Lemma runs_time_Since t : runs_on (time_Since t) 1.
Proof.
  intros w. do 2 eexists. split; [reflexivity|]. repeat split.
  exists "". cbn. now rewrite append_empty_r.
Qed.

Lemma runs_bind {A B : Type} (m : IO A) (k : A -> IO B) n1 n2 :
  runs_on m n1 -> (forall a, runs_on (k a) n2) ->
  runs_on (bind m k) (n1 + n2).
Proof.
  intros Hm Hk w.
  destruct (Hm w) as (a & w1 & Hrun1 & [out1 Hout1] & Herr1 & Hclk1).
  destruct (Hk a w1) as (b & w2 & Hrun2 & [out2 Hout2] & Herr2 & Hclk2).
  exists b, w2. unfold bind. rewrite Hrun1. split; [exact Hrun2|].
  split; [|split].
  - exists (out1 ++ out2). now rewrite Hout2, Hout1, append_assoc.
  - congruence.
  - intros k0. rewrite Hclk2, Hclk1. f_equal. lia.
Qed.

Lemma runs_bind_0 {A B : Type} (m : IO A) (k : A -> IO B) :
  runs_on m 0 -> (forall a, runs_on (k a) 0) -> runs_on (bind m k) 0.
Proof. intros Hm Hk. exact (runs_bind m k 0 0 Hm Hk). Qed.

Lemma runs_when b m : runs_on m 0 -> runs_on (when b m) 0.
Proof. intros Hm. destruct b; [exact Hm|apply runs_ret]. Qed.

Lemma runs_for_range {A : Type} (xs : list A) (body : A -> IO unit)
      (reads : A -> nat) :
  (forall x, runs_on (body x) (reads x)) ->
  runs_on (for_range xs body) (list_sum (map reads xs)).
Proof.
  intros Hbody. induction xs as [|x xs IH].
  - apply runs_ret.
  - cbn [for_range map list_sum].
    apply runs_bind; [apply Hbody|]. intros _. exact IH.
Qed.

Lemma runs_for_range_0 {A : Type} (xs : list A) (body : A -> IO unit) :
  (forall x, runs_on (body x) 0) -> runs_on (for_range xs body) 0.
Proof.
  intros Hbody.
  apply (runs_on_eq _ _ _ (runs_for_range xs body (fun _ => O) Hbody)).
  induction xs; [reflexivity|assumption].
Qed.

Lemma runs_for_range_from {A : Type} (xs : list A)
      (body : Z -> A -> IO unit) (reads : A -> nat) :
  (forall i x, runs_on (body i x) (reads x)) ->
  forall i, runs_on (for_range_from i xs body) (list_sum (map reads xs)).
Proof.
  intros Hbody. induction xs as [|x xs IH]; intros i.
  - apply runs_ret.
  - cbn [for_range_from map list_sum].
    apply runs_bind; [apply Hbody|]. intros _. apply IH.
Qed.

(** Closes a goal [runs_on m ?n] when [m] is built by sequencing and
    branching from operations that do not read the clock and from
    [time_Since]. *)
Ltac runs :=
  repeat first
    [ eapply runs_ret
    | eapply runs_print
    | eapply runs_println
    | eapply runs_time_Since
    | eapply runs_when
    | eapply runs_for_range_0; intro
    | eapply runs_bind; [|intro]
    | eapply runs_bind_0; [|intro]
    | match goal with
      | |- runs_on (match ?x with _ => _ end) _ => destruct x
      end ].

Section Frame.

Variable time_Parse : string -> string -> Result time.Time.
Variable strings_ToLower : string -> string.
Variable strings_Title : string -> string.
Variable json_quote : string -> string.

Lemma runs_printDiffHunk diffHunk : runs_on (printDiffHunk diffHunk) 0.
Proof. unfold printDiffHunk. runs. Qed.

Lemma runs_print_general review :
  runs_on (print_general time_Parse strings_ToLower strings_Title review)
          (timed time_Parse review).
Proof.
  unfold print_general, timed, parseTime.
  destruct (ReviewComment.CreatedAt review =? "")%string; cbn [negb when];
    [|destruct (time_Parse time.RFC3339 (ReviewComment.CreatedAt review))];
    (eapply runs_on_eq; [runs|reflexivity]).
Qed.

Lemma runs_print_comment n i comment :
  runs_on (print_comment time_Parse strings_ToLower n i comment)
          (timed time_Parse comment).
Proof.
  unfold print_comment, timed, parseTime.
  destruct (ReviewComment.CreatedAt comment =? "")%string; cbn [negb when];
    [|destruct (time_Parse time.RFC3339 (ReviewComment.CreatedAt comment))];
    (eapply runs_on_eq;
     [runs; apply runs_printDiffHunk|reflexivity]).
Qed.

Lemma runs_print_check check : runs_on (print_check time_Parse check) 0.
Proof.
  unfold print_check.
  eapply runs_on_eq; [runs|reflexivity].
Qed.

Lemma runs_printHumanReadable feedback :
  runs_on (printHumanReadable time_Parse strings_ToLower strings_Title
                              feedback)
          (clock_reads time_Parse feedback).
Proof.
  unfold printHumanReadable, clock_reads.
  assert (Hgeneral :
            runs_on (when (0 <? len (PRFeedback.GeneralIssues feedback))
                       (for_range (PRFeedback.GeneralIssues feedback)
                          (print_general time_Parse strings_ToLower
                                         strings_Title)))
                    (list_sum (map (timed time_Parse)
                                   (PRFeedback.GeneralIssues feedback)))).
  { destruct (PRFeedback.GeneralIssues feedback) as [|g gs] eqn:E.
    - apply runs_ret.
    - replace (0 <? len (g :: gs)) with true
        by (symmetry; apply Z.ltb_lt; unfold len; simpl List.length; lia).
      apply runs_for_range. apply runs_print_general. }
  assert (Hcomments :
            runs_on (when (0 <? len (PRFeedback.Comments feedback))
                       (println (strings.Repeat "─" 100) ;;
                        println "" ;;
                        for_range_from 0 (PRFeedback.Comments feedback)
                          (print_comment time_Parse strings_ToLower
                             (len (PRFeedback.Comments feedback)))))
                    (list_sum (map (timed time_Parse)
                                   (PRFeedback.Comments feedback)))).
  { destruct (PRFeedback.Comments feedback) as [|c cs] eqn:E.
    - apply runs_ret.
    - replace (0 <? len (c :: cs)) with true
        by (symmetry; apply Z.ltb_lt; unfold len; simpl List.length; lia).
      cbn [when].
      eapply runs_on_eq.
      + eapply runs_bind; [apply runs_println|intros _].
        eapply runs_bind; [apply runs_println|intros _].
        apply runs_for_range_from. intros i x. apply runs_print_comment.
      + reflexivity. }
  assert (Hsections :
            runs_on (when ((0 <? len (PRFeedback.Comments feedback)) ||
                           (0 <? len (PRFeedback.GeneralIssues feedback)))
                       (when (0 <? len (PRFeedback.GeneralIssues feedback))
                          (for_range (PRFeedback.GeneralIssues feedback)
                             (print_general time_Parse strings_ToLower
                                            strings_Title)) ;;
                        when (0 <? len (PRFeedback.Comments feedback))
                          (println (strings.Repeat "─" 100) ;;
                           println "" ;;
                           for_range_from 0 (PRFeedback.Comments feedback)
                             (print_comment time_Parse strings_ToLower
                                (len (PRFeedback.Comments feedback))))))
                    (list_sum (map (timed time_Parse)
                                   (PRFeedback.GeneralIssues feedback))
                     + list_sum (map (timed time_Parse)
                                     (PRFeedback.Comments feedback)))).
  { destruct ((0 <? len (PRFeedback.Comments feedback)) ||
              (0 <? len (PRFeedback.GeneralIssues feedback))) eqn:Eany.
    - cbn [when]. apply runs_bind; [exact Hgeneral|intros _; exact Hcomments].
    - apply orb_false_iff in Eany. destruct Eany as [Ec Eg].
      destruct (PRFeedback.Comments feedback) as [|c cs];
        [|apply Z.ltb_ge in Ec; unfold len in Ec; simpl List.length in Ec; lia].
      destruct (PRFeedback.GeneralIssues feedback) as [|g gs];
        [|apply Z.ltb_ge in Eg; unfold len in Eg; simpl List.length in Eg; lia].
      apply runs_ret. }
  eapply runs_on_eq.
  - eapply runs_bind; [apply runs_print|intros _].
    eapply runs_bind; [apply runs_print|intros _].
    eapply runs_bind; [runs|intros _].
    eapply runs_bind; [apply runs_println|intros _].
    eapply runs_bind; [exact Hsections|intros _].
    apply runs_when.
    eapply runs_on_eq; [runs; apply runs_print_check|reflexivity].
  - cbn. lia.
Qed.

(** X16.  Rendering an aggregate always returns to its caller, only adds
    to standard output and leaves standard error alone, in both formats.
    The structured rendering does not read the clock; the human-readable
    rendering reads it once for each comment, general or anchored, that
    has a creation time that parses, and not for the status checks. *)
Theorem main_output_frame jsonOutput feedback :
  runs_on (main_output time_Parse strings_ToLower strings_Title json_quote
                       jsonOutput feedback)
          (if jsonOutput then 0 else clock_reads time_Parse feedback).
Proof.
  destruct jsonOutput; cbn [main_output].
  - apply runs_println.
  - apply runs_printHumanReadable.
Qed.

End Frame.

(* ================================================================= *)
(** ** What a block of the human-readable rendering prints *)

Lemma print_each lines w :
  for_range lines (fun line => print (line ++ nl)) w
  = (Return tt,
     mkWorld (stdout w ++
              fold_right (fun piece out => piece ++ nl ++ out) "" lines)
             (stderr w) (clock w)).
Proof.
  revert w. induction lines as [|line lines IH]; intros w.
  - cbn. rewrite append_empty_r. now destruct w.
  - cbn [for_range fold_right]. rewrite bind_print, IH.
    cbn [stdout stderr clock]. now rewrite !append_assoc.
Qed.

(** Printing the lines of a text, each followed by a newline, prints the
    text followed by a newline. *)
Lemma print_lines text w :
  for_range (strings.Split text nl) (fun line => print (line ++ nl)) w
  = (Return tt, mkWorld (stdout w ++ text ++ nl) (stderr w) (clock w)).
Proof.
  rewrite print_each.
  change (strings.Split text nl) with (strings.split_from nl text O).
  unfold nl. now rewrite split_from_concat.
Qed.

Section Blocks.

Variable time_Parse : string -> string -> Result time.Time.
Variable strings_ToLower : string -> string.
Variable strings_Title : string -> string.

(** X17.  The block of a general comment is one header line with the
    author, the association in title case and the relative time at the
    moment the clock is read, an empty line, the body byte for byte, and
    an empty line. *)
Theorem print_general_output review w :
  stdout (snd (print_general time_Parse strings_ToLower strings_Title
                             review w))
  = stdout w ++
    colorBold ++ ReviewComment.Author review ++ colorReset ++
    " commented " ++ colorGray ++ "(" ++
    strings_Title (strings_ToLower (ReviewComment.AuthorAssoc review)) ++
    ")" ++ colorReset ++ " • " ++ colorGray ++
    ago_at time_Parse (ReviewComment.CreatedAt review) (clock w O) ++
    colorReset ++ nl ++ nl ++
    ReviewComment.Body review ++ nl ++
    nl.
Proof.
  unfold print_general, ago_at, parseTime.
  rewrite bind_print.
  destruct (ReviewComment.CreatedAt review =? "")%string; cbn [negb when].
  - rewrite bind_ret, bind_print. unfold bind. rewrite print_lines.
    cbn [println print snd stdout stderr clock].
    now rewrite !append_assoc.
  - destruct (time_Parse time.RFC3339 (ReviewComment.CreatedAt review)).
    + unfold bind at 1. rewrite bind_time_Since.
      cbn [print stdout stderr clock].
      rewrite bind_print. unfold bind. rewrite print_lines.
      cbn [println print snd stdout stderr clock].
      now rewrite !append_assoc.
    + rewrite bind_ret, bind_print. unfold bind. rewrite print_lines.
      cbn [println print snd stdout stderr clock].
      now rewrite !append_assoc.
Qed.

(** X18.  For an aggregate without comments, general issues and failing
    checks, the human-readable rendering is the title line, the status
    line and an empty line: no summary and no section. *)
Theorem printHumanReadable_nothing_to_report number title url w :
  stdout (snd (printHumanReadable time_Parse strings_ToLower strings_Title
                 (PRFeedback.mk number title url [] [] []) w))
  = stdout w ++
    colorBold ++ title ++ " #" ++ strconv.Itoa number ++ colorReset ++ nl ++
    colorGreen ++ "Open" ++ colorReset ++ " • " ++
    colorGray ++ url ++ colorReset ++ nl ++
    nl.
Proof.
  unfold printHumanReadable.
  cbn [PRFeedback.Comments PRFeedback.GeneralIssues PRFeedback.StatusChecks
       PRFeedback.Title PRFeedback.PRNumber PRFeedback.URL].
  change (len (@nil ReviewComment.t)) with 0.
  change (len (@nil StatusCheck.t)) with 0.
  cbn [Z.add Z.ltb Z.compare orb when].
  rewrite !bind_print, bind_ret, bind_println, bind_ret.
  cbn [ret snd stdout]. now rewrite !append_assoc.
Qed.

End Blocks.

(* ================================================================= *)
(** ** [main]: how it ends, and what it does not look at *)

Lemma bind_eprint {B : Type} s (k : unit -> IO B) w :
  bind (eprint s) k w = k tt (mkWorld (stdout w) (stderr w ++ s) (clock w)).
Proof. reflexivity. Qed.

Lemma bind_run {A B : Type} (m : IO A) (k : A -> IO B) w a w1 :
  m w = (Return a, w1) -> bind m k w = k a w1.
Proof. intros H. unfold bind. now rewrite H. Qed.

Lemma bind_ext {A B : Type} (m : IO A) (k1 k2 : A -> IO B) w :
  (forall a w1, k1 a w1 = k2 a w1) -> bind m k1 w = bind m k2 w.
Proof.
  intros H. unfold bind. destruct (m w) as [[a|code] w1]; [apply H|reflexivity].
Qed.

Lemma main_arguments_Return host os_Args w a w' :
  main_arguments host os_Args w = (Return a, w') -> w' = w.
Proof.
  unfold main_arguments. intros Hrun.
  apply bind_Return in Hrun. destruct Hrun as (a1 & w1 & Hparse & Hret).
  apply (parse_args_flags host (List.length (tl os_Args))) in Hparse; [|lia].
  destruct Hparse as [-> _].
  destruct (args.targetDir a1 =? "")%string; unfold ret in Hret;
    now injection Hret as _ <-.
Qed.

Lemma main_arguments_Exit host os_Args w code w' :
  main_arguments host os_Args w = (Exit code, w') -> ends_early w code w'.
Proof.
  unfold main_arguments. intros Hrun.
  apply bind_Exit in Hrun. destruct Hrun as [Hrun|(a & w1 & _ & Hrun)].
  - now apply (parse_args_exits host (List.length (tl os_Args))) in Hrun.
  - destruct (args.targetDir a =? "")%string; discriminate.
Qed.

Lemma getPRFeedback_Return host client repo prNumber w :
  exists r w',
    getPRFeedback host client repo prNumber w = (Return r, w')
    /\ stdout w' = stdout w
    /\ (is_err r = true -> w' = w).
Proof.
  unfold getPRFeedback, wrap, ret, bind, eprint.
  destruct (Get_pr client _) as [p|e1]; [|eauto 8].
  destruct (Get_reviewComments client _) as [rc|e2]; [|eauto 8].
  destruct (Get_issueComments client _) as [ic|e3]; [|eauto 8].
  destruct (Get_reviews client _) as [rv|e4]; [|eauto 8].
  destruct (getStatusChecks host repo prNumber) as [sc|e];
    do 2 eexists; repeat split; discriminate.
Qed.

Lemma ends_early_stderr w w' out msg :
  stdout w' = stdout w ->
  stderr w' = stderr w ++ out ->
  out = "Error" ++ msg ++ nl ->
  ends_early w 1 w'.
Proof. intros Hout Herr ->. right. repeat split; eauto. Qed.

Section MainProperties.

Variable time_Parse : string -> string -> Result time.Time.
Variable strings_ToLower : string -> string.
Variable strings_Title : string -> string.
Variable json_quote : string -> string.

Lemma resolve_Exit platform host client prNumber repoName w code w' :
  resolve platform host client prNumber repoName w = (Exit code, w') ->
  ends_early w code w'.
Proof.
  unfold resolve.
  destruct ((0 <? prNumber) && negb (repoName =? "")%string); [discriminate|].
  destruct (0 <? prNumber);
    destruct (getCurrentPR platform host client) as [[number name]|e];
    try discriminate.
  - rewrite !bind_eprint. unfold os_Exit. intros H. injection H as <- <-.
    eapply ends_early_stderr with
      (msg := ": PR number provided but couldn't determine repository." ++ nl
              ++ "Use --repo to specify the repository (e.g., --repo owner/name)");
      [reflexivity| |reflexivity].
    cbn [stderr]. now rewrite !append_assoc.
  - rewrite !bind_eprint. unfold os_Exit. intros H. injection H as <- <-.
    eapply ends_early_stderr with
      (msg := ": " ++ e ++ nl ++ nl
              ++ "Make sure you're in a git repository with an open PR." ++ nl
              ++ "You can check PR status with: gh pr status" ++ nl
              ++ "Or specify a PR number: gh pr-feedback 123 --repo owner/name");
      [reflexivity| |].
    + cbn [stderr]. rewrite !append_assoc. reflexivity.
    + cbn. now rewrite !append_assoc.
Qed.

Lemma resolve_Return platform host client prNumber repoName w target w' :
  resolve platform host client prNumber repoName w = (Return target, w') ->
  w' = w.
Proof.
  unfold resolve.
  destruct ((0 <? prNumber) && negb (repoName =? "")%string).
  { unfold ret. intros H. now injection H as _ <-. }
  destruct (0 <? prNumber);
    destruct (getCurrentPR platform host client) as [[number name]|e];
    try (unfold ret; intros H; now injection H as _ <-).
  - intros H. exits H.
  - intros H. apply bind_Return in H. destruct H as (? & ? & _ & H).
    apply bind_Return in H. destruct H as (? & ? & _ & H).
    apply bind_Return in H. destruct H as (? & ? & _ & H).
    exits H.
Qed.

Lemma main_output_never_exits jsonOutput feedback w :
  exists u w',
    main_output time_Parse strings_ToLower strings_Title json_quote
                jsonOutput feedback w = (Return u, w').
Proof.
  destruct jsonOutput; cbn [main_output].
  - do 2 eexists. reflexivity.
  - destruct (runs_printHumanReadable time_Parse strings_ToLower
                strings_Title feedback w) as (u & w' & H & _).
    eauto.
Qed.

(** X19.  Whenever [main] ends the process before returning, it is in one
    of two ways: with status 0 after printing the version or the usage
    text, and nothing on standard error; or with status 1 after writing
    lines that start with ["Error"] to standard error, and nothing on
    standard output.  No part of a report is printed before a failure. *)
Theorem main_ends_early platform host os_Args w code w' :
  main time_Parse strings_ToLower strings_Title json_quote
       platform host os_Args w = (Exit code, w') ->
  ends_early w code w'.
Proof.
  unfold main. intros Hrun.
  apply bind_Exit in Hrun. destruct Hrun as [Hrun|(a & w1 & Hargs & Hrun)].
  { now apply main_arguments_Exit in Hrun. }
  apply main_arguments_Return in Hargs. subst w1.
  destruct (os_Getwd platform) as [originalDir|e].
  2: { rewrite eprint_exit_run in Hrun. injection Hrun as <- <-.
       apply (ends_early_error w (" getting current directory: " ++ e)). }
  apply bind_Exit in Hrun. destruct Hrun as [Hrun|(host' & w1 & Hdir & Hrun)].
  { destruct (negb (args.targetDir a =? ".")%string); [|discriminate].
    destruct (os_Chdir platform (args.targetDir a)) as [there|e];
      [discriminate|].
    rewrite eprint_exit_run in Hrun. injection Hrun as <- <-.
    eapply ends_early_stderr with
      (msg := " changing to directory '" ++ args.targetDir a ++ "': " ++ e);
      [reflexivity|reflexivity|].
    cbn. now rewrite !append_assoc. }
  assert (w1 = w) as ->.
  { destruct (negb (args.targetDir a =? ".")%string).
    - destruct (os_Chdir platform (args.targetDir a)) as [there|e].
      + unfold ret in Hdir. now injection Hdir as _ <-.
      + exits Hdir.
    - unfold ret in Hdir. now injection Hdir as _ <-. }
  destruct (api_DefaultRESTClient platform) as [client|e].
  2: { rewrite eprint_exit_run in Hrun. injection Hrun as <- <-.
       apply (ends_early_error w (" creating GitHub client: " ++ e)). }
  apply bind_Exit in Hrun.
  destruct Hrun as [Hrun|(target & w1 & Htarget & Hrun)].
  { now apply resolve_Exit in Hrun. }
  apply resolve_Return in Htarget. subst w1.
  destruct (getPRFeedback_Return host' client (snd target) (fst target) w)
    as (r & w2 & Hfetch & Hout & Hsame).
  apply bind_Exit in Hrun. destruct Hrun as [Hrun|(r' & w2' & Hfetch' & Hrun)].
  { rewrite Hfetch in Hrun. discriminate. }
  rewrite Hfetch in Hfetch'. injection Hfetch' as <- <-.
  destruct r as [feedback|e].
  - destruct (main_output_never_exits (args.jsonOutput a) feedback w2)
      as (u & w3 & Hprint).
    rewrite Hprint in Hrun. discriminate.
  - rewrite (Hsame eq_refl) in Hrun.
    rewrite eprint_exit_run in Hrun. injection Hrun as <- <-.
    apply (ends_early_error w (" fetching PR feedback: " ++ e)).
Qed.

(** X20.  With a PR number and a repository on the command line, [main]
    does not depend on how the answers of [gh pr view] and [gh repo view]
    decode: the current branch and repository are not consulted. *)
Theorem main_explicit_target platform host os_Args w a w1 number' name' :
  main_arguments host os_Args w = (Return a, w1) ->
  0 < args.prNumber a ->
  args.repoName a <> "" ->
  main time_Parse strings_ToLower strings_Title json_quote
       platform host os_Args w
  = main time_Parse strings_ToLower strings_Title json_quote
         (mkPlatform (os_Getwd platform) (os_Chdir platform)
                     (api_DefaultRESTClient platform) number' name')
         host os_Args w.
Proof.
  intros Hargs Hnum Hrepo. unfold main.
  rewrite !(bind_run _ _ _ _ _ Hargs).
  cbn [os_Getwd os_Chdir api_DefaultRESTClient].
  destruct (os_Getwd platform) as [dir|e]; [|reflexivity].
  apply bind_ext. intros host' w2.
  destruct (api_DefaultRESTClient platform) as [client|e]; [|reflexivity].
  unfold resolve.
  apply Z.ltb_lt in Hnum. apply String.eqb_neq in Hrepo.
  now rewrite Hnum, Hrepo.
Qed.

(** X21.  With a PR number but no repository on the command line, and no
    directory argument, [main] still asks for the PR of the current
    branch: when that fails it ends with status 1 and a two-line message,
    although the PR number was given and only the repository is
    missing. *)
Theorem main_number_alone_needs_current_PR
        platform host os_Args w a w1 dir client :
  main_arguments host os_Args w = (Return a, w1) ->
  0 < args.prNumber a ->
  args.repoName a = "" ->
  args.targetDir a = "." ->
  os_Getwd platform = Ok dir ->
  api_DefaultRESTClient platform = Ok client ->
  is_err (getCurrentPR platform host client) = true ->
  main time_Parse strings_ToLower strings_Title json_quote
       platform host os_Args w
  = (Exit 1,
     mkWorld (stdout w)
             (stderr w ++
              "Error: PR number provided but couldn't determine repository."
              ++ nl ++
              "Use --repo to specify the repository (e.g., --repo owner/name)"
              ++ nl)
             (clock w)).
Proof.
  intros Hargs Hnum Hrepo Hdir Hwd Hclient Hcurrent.
  pose proof (main_arguments_Return _ _ _ _ _ Hargs) as ->.
  unfold main. rewrite (bind_run _ _ _ _ _ Hargs), Hwd, Hdir.
  cbn [String.eqb Ascii.eqb Bool.eqb andb negb].
  rewrite bind_ret, Hclient.
  unfold resolve. apply Z.ltb_lt in Hnum. rewrite Hnum, Hrepo.
  cbn [String.eqb negb andb].
  destruct (getCurrentPR platform host client) as [[number name]|e];
    [discriminate|].
  unfold bind at 1. rewrite !bind_eprint. unfold os_Exit.
  cbn [stdout stderr clock]. now rewrite !append_assoc.
Qed.

(** X22.  Without a PR number on the command line, the value of [--repo]
    is not used: two command lines that differ only in it make [main] do
    the same thing, the repository being that of the current
    directory. *)
Theorem main_repo_alone_is_ignored
        platform host os_Args1 os_Args2 w a1 a2 w1 w2 :
  main_arguments host os_Args1 w = (Return a1, w1) ->
  main_arguments host os_Args2 w = (Return a2, w2) ->
  args.prNumber a1 = 0 ->
  args.prNumber a2 = 0 ->
  args.jsonOutput a1 = args.jsonOutput a2 ->
  args.targetDir a1 = args.targetDir a2 ->
  main time_Parse strings_ToLower strings_Title json_quote
       platform host os_Args1 w
  = main time_Parse strings_ToLower strings_Title json_quote
         platform host os_Args2 w.
Proof.
  intros Hargs1 Hargs2 Hnum1 Hnum2 Hjson Hdir.
  pose proof (main_arguments_Return _ _ _ _ _ Hargs1) as ->.
  pose proof (main_arguments_Return _ _ _ _ _ Hargs2) as ->.
  unfold main.
  rewrite (bind_run _ _ _ _ _ Hargs1), (bind_run _ _ _ _ _ Hargs2).
  unfold resolve. now rewrite Hnum1, Hnum2, Hjson, Hdir.
Qed.

End MainProperties.

Lemma main_ends_early_witness :
  ends_early (still_world 0) 1
    (mkWorld ""
       ("Error: PR number provided but couldn't determine repository." ++ nl ++
        "Use --repo to specify the repository (e.g., --repo owner/name)" ++ nl)
       (fun _ => 0)).
Proof.
  exact (main_ends_early ascii_library.Parse ascii_library.ToLower
           ascii_library.Title ascii_library.quote
           sample_platform quiet_host ["gh-pr-feedback"; "7"]
           (still_world 0) 1 _ eq_refl).
Defined.

Lemma main_explicit_target_witness :
  main ascii_library.Parse ascii_library.ToLower ascii_library.Title
       ascii_library.quote sample_platform sample_host
       ["gh-pr-feedback"; "117"; "--repo"; "o/r"; "--json"] (still_world 0)
  = main ascii_library.Parse ascii_library.ToLower ascii_library.Title
         ascii_library.quote detached_platform sample_host
         ["gh-pr-feedback"; "117"; "--repo"; "o/r"; "--json"] (still_world 0).
Proof.
  exact (main_explicit_target ascii_library.Parse ascii_library.ToLower
           ascii_library.Title ascii_library.quote
           sample_platform sample_host
           ["gh-pr-feedback"; "117"; "--repo"; "o/r"; "--json"]
           (still_world 0) (args.mk true "." 117 "o/r") (still_world 0)
           (fun _ => Err "unexpected end of JSON input")
           (fun _ => Err "unexpected end of JSON input")
           eq_refl eq_refl
           (fun H : "o/r" = "" => eq_ind "o/r"
              (fun s => match s with EmptyString => False | _ => True end)
              I "" H)).
Defined.

Lemma main_number_alone_needs_current_PR_witness :
  main ascii_library.Parse ascii_library.ToLower ascii_library.Title
       ascii_library.quote sample_platform quiet_host
       ["gh-pr-feedback"; "7"] (still_world 0)
  = (Exit 1,
     mkWorld ""
       ("" ++
        "Error: PR number provided but couldn't determine repository." ++ nl ++
        "Use --repo to specify the repository (e.g., --repo owner/name)" ++ nl)
       (fun _ => 0)).
Proof.
  exact (main_number_alone_needs_current_PR
           ascii_library.Parse ascii_library.ToLower ascii_library.Title
           ascii_library.quote sample_platform quiet_host
           ["gh-pr-feedback"; "7"] (still_world 0)
           (args.mk false "." 7 "") (still_world 0) "/home/dev/r" sample_client
           eq_refl eq_refl eq_refl eq_refl eq_refl eq_refl eq_refl).
Defined.

Lemma main_repo_alone_is_ignored_witness :
  main ascii_library.Parse ascii_library.ToLower ascii_library.Title
       ascii_library.quote sample_platform sample_host
       ["gh-pr-feedback"; "--repo"; "someone/else"] (still_world 0)
  = main ascii_library.Parse ascii_library.ToLower ascii_library.Title
         ascii_library.quote sample_platform sample_host
         ["gh-pr-feedback"] (still_world 0).
Proof.
  exact (main_repo_alone_is_ignored
           ascii_library.Parse ascii_library.ToLower ascii_library.Title
           ascii_library.quote sample_platform sample_host
           ["gh-pr-feedback"; "--repo"; "someone/else"] ["gh-pr-feedback"]
           (still_world 0)
           (args.mk false "." 0 "someone/else") (args.mk false "." 0 "")
           (still_world 0) (still_world 0)
           eq_refl eq_refl eq_refl eq_refl eq_refl eq_refl).
Defined.

(* ================================================================= *)
(** ** Invariants of the argument loop *)

Lemma Atoi_range s n :
  strconv.Atoi s = Some n -> strconv.minInt <= n <= strconv.maxInt.
Proof.
  unfold strconv.Atoi. cbv zeta.
  destruct s as [|c rest]; [discriminate|].
  destruct c as [[] [] [] [] [] [] [] []]; cbv beta iota;
    intros H;
    repeat match type of H with
           | context [match ?x with _ => _ end] =>
               destruct x eqn:?; try discriminate
           end;
    injection H as <-;
    match goal with
    | E : _ && _ = true |- _ =>
        apply andb_true_iff in E; destruct E as [E1 E2];
        apply Z.leb_le in E1; apply Z.leb_le in E2; lia
    end.
Qed.

Lemma positive_number_range arg num :
  positive_number arg = Some num -> 0 < num <= strconv.maxInt.
Proof.
  unfold positive_number.
  destruct (strconv.Atoi arg) as [n|] eqn:E; [|discriminate].
  apply Atoi_range in E.
  destruct (0 <? n) eqn:Hpos; [|discriminate].
  intros H. injection H as <-. apply Z.ltb_lt in Hpos. lia.
Qed.

Lemma parse_args_invariant host (n : nat) :
  forall rest a0 w a w',
    (List.length rest <= n)%nat ->
    parse_args host rest a0 w = (Return a, w') ->
    (args.prNumber a = args.prNumber a0 \/
     0 < args.prNumber a <= strconv.maxInt)
    /\ (args.targetDir a = args.targetDir a0 \/
        (os_Stat_IsNotExist host (args.targetDir a) = false /\
         In (args.targetDir a) rest /\
         strings.HasPrefix (args.targetDir a) "-" = false)).
Proof.
  induction n as [|n IH]; intros rest a0 w a w' Hlen Hrun.
  - destruct rest; [|simpl in Hlen; lia].
    cbn [parse_args] in Hrun. injection Hrun as <- _. now split; left.
  - destruct rest as [|arg rest].
    { cbn [parse_args] in Hrun. injection Hrun as <- _. now split; left. }
    cbn [parse_args] in Hrun. simpl in Hlen.
    assert (Hweaken :
              forall a1 rest1,
                (forall x, In x rest1 -> In x (arg :: rest)) ->
                args.prNumber a1 = args.prNumber a0 ->
                args.targetDir a1 = args.targetDir a0 ->
                (List.length rest1 <= n)%nat ->
                parse_args host rest1 a1 w = (Return a, w') ->
                (args.prNumber a = args.prNumber a0 \/
                 0 < args.prNumber a <= strconv.maxInt)
                /\ (args.targetDir a = args.targetDir a0 \/
                    (os_Stat_IsNotExist host (args.targetDir a) = false /\
                     In (args.targetDir a) (arg :: rest) /\
                     strings.HasPrefix (args.targetDir a) "-" = false))).
    { intros a1 rest1 Hin Hnum Hdir Hlen1 Hrun1.
      apply IH in Hrun1; [|exact Hlen1].
      rewrite Hnum, Hdir in Hrun1. destruct Hrun1 as [H1 H2].
      split; [exact H1|].
      destruct H2 as [H2|(H2 & H3 & H4)]; [now left|right].
      repeat split; auto. }
    destruct ((arg =? "--version")%string || (arg =? "-v")%string).
    { exits Hrun. }
    destruct ((arg =? "--help")%string || (arg =? "-h")%string).
    { exits Hrun. }
    destruct ((arg =? "--json")%string || (arg =? "-j")%string).
    { apply (Hweaken _ rest) in Hrun; trivial; [|lia].
      intros x Hx. now right. }
    destruct ((arg =? "--repo")%string || (arg =? "-R")%string).
    { destruct rest as [|value rest].
      - exits Hrun.
      - simpl in Hlen. apply (Hweaken _ rest) in Hrun; trivial; [|lia].
        intros x Hx. right. now right. }
    destruct (strings.HasPrefix arg "-") eqn:Hdash; cbn [negb] in Hrun.
    { apply (Hweaken _ rest) in Hrun; trivial; [|lia].
      intros x Hx. now right. }
    destruct (positive_number arg) as [num|] eqn:Hnum.
    { apply positive_number_range in Hnum.
      apply IH in Hrun; [|lia].
      cbn [args.prNumber args.targetDir] in Hrun. destruct Hrun as [H1 H2].
      split.
      - right. destruct H1 as [->|H1]; assumption.
      - destruct H2 as [H2|(H2 & H3 & H4)]; [now left|right].
        repeat split; auto. now right. }
    destruct (args.targetDir a0 =? "")%string.
    + destruct (os_Stat_IsNotExist host arg) eqn:Hstat.
      { exits Hrun. }
      apply IH in Hrun; [|lia].
      cbn [args.prNumber args.targetDir] in Hrun. destruct Hrun as [H1 H2].
      split; [exact H1|]. right.
      destruct H2 as [->|(H2 & H3 & H4)].
      * repeat split; auto. now left.
      * repeat split; auto. now right.
    + apply (Hweaken _ rest) in Hrun; trivial; [|lia].
      intros x Hx. now right.
Qed.

(** X23.  When the argument loop runs to its end, the PR number is 0 or a
    positive integer in the range of [int], and the target directory is
    either ["."] or one of the arguments, one that does not start with a
    dash and that [os.Stat] did not report as missing: [main] never
    changes to a directory it has not checked. *)
Theorem main_arguments_invariants host os_Args w a w' :
  main_arguments host os_Args w = (Return a, w') ->
  0 <= args.prNumber a <= strconv.maxInt
  /\ (args.targetDir a = "." \/
      (os_Stat_IsNotExist host (args.targetDir a) = false /\
       In (args.targetDir a) (tl os_Args) /\
       strings.HasPrefix (args.targetDir a) "-" = false)).
Proof.
  unfold main_arguments. intros Hrun.
  apply bind_Return in Hrun. destruct Hrun as (a1 & w1 & Hparse & Hret).
  apply (parse_args_invariant host (List.length (tl os_Args))) in Hparse;
    [|lia].
  cbn [args.prNumber args.targetDir] in Hparse.
  destruct Hparse as [Hnum Hdir].
  assert (Hrange : 0 <= args.prNumber a1 <= strconv.maxInt).
  { destruct Hnum as [->|Hnum]; [|lia]. unfold strconv.maxInt. lia. }
  destruct (args.targetDir a1 =? "")%string eqn:E; unfold ret in Hret;
    injection Hret as <- _; cbn [args.prNumber args.targetDir].
  - split; [exact Hrange|now left].
  - split; [exact Hrange|]. right.
    destruct Hdir as [Hdir|Hdir]; [|exact Hdir].
    rewrite Hdir in E. discriminate.
Qed.

Lemma main_arguments_invariants_witness :
  0 <= 2 <= strconv.maxInt
  /\ ("src" = "." \/
      (os_Stat_IsNotExist quiet_host "src" = false /\
       In "src" ["1"; "src"; "--repo"; "o/r"; "-j"; "2"; "docs"] /\
       strings.HasPrefix "src" "-" = false)).
Proof.
  exact (main_arguments_invariants quiet_host
           ["gh-pr-feedback"; "1"; "src"; "--repo"; "o/r"; "-j"; "2"; "docs"]
           (still_world 0) (args.mk true "src" 2 "o/r") (still_world 0)
           eq_refl).
Defined.

(* ================================================================= *)
(** ** Relative times at the two ends of the range *)

(** X24.  A comment whose creation time is less than a minute before the
    clock reading, or after it, is shown as ["just now"]; a comment whose
    creation time is 2^63 - 1 nanoseconds or more before the clock
    reading is shown as ["292 years ago"], the difference of the two
    instants being saturated to the range of [time.Duration]. *)
Theorem ago_at_ends time_Parse createdAt t now :
  createdAt <> "" ->
  time_Parse time.RFC3339 createdAt = Ok t ->
  (now - t < time.Minute -> ago_at time_Parse createdAt now = "just now")
  /\ (time.maxDuration <= now - t ->
      ago_at time_Parse createdAt now = "292 years ago").
Proof.
  intros Hne Hparse. unfold ago_at.
  apply String.eqb_neq in Hne. rewrite Hne, Hparse. unfold time.Sub.
  split; intros Hd.
  - assert (Hjust : forall d, d < time.Minute -> formatTimeAgo d = "just now").
    { intros d Hlt. unfold formatTimeAgo.
      apply Z.ltb_lt in Hlt. now rewrite Hlt. }
    destruct (now - t <? time.minDuration).
    + apply Hjust. reflexivity.
    + destruct (time.maxDuration <? now - t) eqn:E.
      * apply Z.ltb_lt in E. unfold time.maxDuration, time.Minute,
          time.Second in *. lia.
      * now apply Hjust.
  - destruct (now - t <? time.minDuration) eqn:E1.
    + apply Z.ltb_lt in E1. unfold time.maxDuration, time.minDuration in *. lia.
    + destruct (time.maxDuration <? now - t) eqn:E2.
      * now vm_compute.
      * apply Z.ltb_ge in E2.
        replace (now - t) with time.maxDuration by lia.
        now vm_compute.
Qed.

Lemma ago_at_ends_witness :
  ago_at ascii_library.Parse "2024-01-01T00:00:00Z"
         (63839664000 * time.Second - 5 * time.Second)
  = "just now".
Proof.
  apply (ago_at_ends ascii_library.Parse "2024-01-01T00:00:00Z"
           (63839664000 * time.Second)
           (63839664000 * time.Second - 5 * time.Second)).
  - discriminate.
  - reflexivity.
  - reflexivity.
Defined.

(* ================================================================= *)
(** ** [printDiffHunk] line by line *)

Lemma for_range_app {A : Type} (xs ys : list A) (body : A -> IO unit) w :
  for_range (xs ++ ys) body w
  = (for_range xs body ;; for_range ys body) w.
Proof.
  revert w. induction xs as [|x xs IH]; intros w.
  - reflexivity.
  - cbn [for_range app]. unfold bind at 1 2 3.
    destruct (body x w) as [[u|code] w1]; [|reflexivity].
    rewrite IH. reflexivity.
Qed.

(** X25.  [printDiffHunk] works line by line: printing two texts joined
    by a newline is printing the first and then the second; a text
    without a newline is printed as nothing when it is empty, and
    otherwise as one line indented by four spaces, in green, red or cyan
    when it starts with [+], [-] or [@], and uncoloured otherwise. *)
Theorem printDiffHunk_by_line :
  (forall a b w,
     printDiffHunk (a ++ nl ++ b) w
     = (printDiffHunk a ;; printDiffHunk b) w)
  /\ (forall line w,
        strings.Contains line nl = false ->
        printDiffHunk line w
        = match line with
          | EmptyString => (Return tt, w)
          | String c _ =>
              print ("    " ++
                     (if (c =? "+")%char then colorGreen ++ line ++ colorReset
                      else if (c =? "-")%char then colorRed ++ line ++ colorReset
                      else if (c =? "@")%char then colorCyan ++ line ++ colorReset
                      else line) ++ nl) w
          end).
Proof.
  split.
  - intros a b w. unfold printDiffHunk.
    change (strings.Split (a ++ nl ++ b) nl)
      with (strings.split_from nl (a ++ String "010" b) O).
    unfold nl at 1. rewrite split_from_app. apply for_range_app.
  - intros line w Hline. unfold printDiffHunk.
    change (strings.Split line nl) with (strings.split_from nl line O).
    unfold nl at 1. rewrite (split_from_no_sep _ _ Hline).
    cbn [for_range]. destruct line as [|c rest].
    + reflexivity.
    + unfold bind.
      destruct (c =? "+")%char; [|destruct (c =? "-")%char;
                                   [|destruct (c =? "@")%char]];
        rewrite !print_run; cbn [ret];
        do 2 f_equal; cbn; now rewrite ?append_assoc.
Qed.

Lemma printDiffHunk_by_line_witness :
  printDiffHunk "+added" (still_world 0)
  = print ("    " ++ (colorGreen ++ "+added" ++ colorReset) ++ nl)
          (still_world 0).
Proof.
  exact (proj2 printDiffHunk_by_line "+added" (still_world 0) eq_refl).
Defined.

(* ================================================================= *)
(** ** Durations of whole seconds *)

Lemma holds_from_spec p n :
  forall lo, holds_from lo n p = true ->
  forall k, lo <= k < lo + Z.of_nat n -> p k = true.
Proof.
  induction n as [|n IH]; intros lo H k Hk.
  - simpl in Hk. lia.
  - cbn [holds_from] in H. apply andb_true_iff in H. destruct H as [Hlo Hrest].
    destruct (Z.eq_dec k lo) as [->|Hne]; [exact Hlo|].
    apply (IH (lo + 1) Hrest). lia.
Qed.

(** X26.  For a duration of a whole number of seconds, from an hour
    before zero to two hours, [formatDuration] prints what integer
    arithmetic gives: the seconds below a minute (with their sign when the
    end precedes the start), minutes and seconds below an hour, hours and
    minutes from there on.  The conversions through [float64] lose
    nothing on this range. *)
Theorem formatDuration_whole_seconds k :
  -3600 < k < 7200 ->
  formatDuration (k * time.Second) = duration_in_seconds k.
Proof.
  intros Hk. apply String.eqb_eq.
  apply (holds_from_spec
           (fun k => (formatDuration (k * time.Second)
                      =? duration_in_seconds k)%string)
           (Z.to_nat 10799) (-3599)); [|lia].
  vm_compute. reflexivity.
Qed.

Lemma formatDuration_whole_seconds_witness :
  formatDuration (125 * time.Second) = duration_in_seconds 125.
Proof.
  apply (formatDuration_whole_seconds 125). lia.
Defined.
